(** * Christmas-Tree: gesture classifier, gesture service and mode machine

    A shallow embedding of [services/gestureService.ts] (class
    [GestureService]) and of the gesture-driven state transitions of
    [App.tsx], with the properties the design document states about them.

    How the program is modelled:
    - JavaScript numbers are kept behind the interface [JsNumber], so the
      functions are written once, with the operations the source uses.
      Two instances are given: IEEE-754 binary64 ([PrimFloat.float], what
      the program runs on; the definitions evaluate there) and the real
      numbers (the reading under which arithmetic facts are proved).
    - An exception is [None]: [processDetections] throws on a missing
      landmark, the transition effect on a missing photo.
    - The service lives in a [Runtime]: its fields, the browser's queue of
      animation-frame requests, and a trace of the calls an observer sees
      (Landmark Provider, classifier, callback, console warning).  What
      the video element and the provider answer comes with each loop run.
      The callback is the one [App.tsx] registers: it stores the state and
      does not call back into the service.
    - The React state is a record of the [useState] cells; an event is a
      new GestureState, an upload, or a re-run of the effect, each with
      the value [Math.random()] would return. *)

From Stdlib Require Import ZArith List Bool String Reals Lra Lia.
From Stdlib Require PrimFloat Uint63 FloatOps.
Import ListNotations.

(** ** JavaScript numbers *)

Class JsNumber (num : Type) : Type := {
  ofZ    : Z -> num;               (* an integer literal, or an array length *)
  nadd   : num -> num -> num;      (* a + b *)
  nsub   : num -> num -> num;      (* a - b *)
  nmul   : num -> num -> num;      (* a * b *)
  ndiv   : num -> num -> num;      (* a / b *)
  nsqrt  : num -> num;             (* Math.sqrt(a) *)
  nltb   : num -> num -> bool;     (* a < b *)
  neqb   : num -> num -> bool;     (* a === b *)
  nfloor : num -> option Z         (* Math.floor(a); no integer for NaN, +-Infinity *)
}.

Declare Scope js_scope.
Delimit Scope js_scope with js.
Infix "+" := nadd : js_scope.
Infix "-" := nsub : js_scope.
Infix "*" := nmul : js_scope.
Infix "/" := ndiv : js_scope.
Infix "<?" := nltb : js_scope.
Notation "a >? b" := (nltb b a) : js_scope.
Infix "===" := neqb (at level 70, no associativity) : js_scope.
Notation "a !== b" := (negb (neqb a b)) (at level 70, no associativity) : js_scope.

(** A decimal literal [n/d], e.g. [0.2] is [decimal 2 10]: the number
    nearest to the quotient (division of two exact integers is correctly
    rounded on floats, and exact on reals). *)
Definition decimal {num} `{JsNumber num} (n d : Z) : num := (ofZ n / ofZ d)%js.

(** [Math.pow(a, 2)]. *)
Definition pow2 {num} `{JsNumber num} (a : num) : num := (a * a)%js.

(** The real numbers: the idealised reading of the arithmetic. *)
Definition Rltb (a b : R) : bool := if Rlt_dec a b then true else false.
Definition Reqb (a b : R) : bool := if Req_dec_T a b then true else false.

#[export] Instance R_number : JsNumber R := {|
  ofZ := IZR;
  nadd := Rplus;
  nsub := Rminus;
  nmul := Rmult;
  ndiv := Rdiv;
  nsqrt := sqrt;
  nltb := Rltb;
  neqb := Reqb;
  nfloor := fun a => Some (Int_part a)
|}.

(** IEEE-754 binary64, the numbers of the JavaScript engine.  [float_ofZ]
    is exact on the integers the program writes (below 2^53 in size);
    [float_floor] reads the floor off the mantissa and exponent. *)
Definition float_ofZ (z : Z) : PrimFloat.float :=
  match z with
  | Z0 => PrimFloat.zero
  | Zpos _ => PrimFloat.of_uint63 (Uint63.of_Z z)
  | Zneg p => PrimFloat.opp (PrimFloat.of_uint63 (Uint63.of_Z (Zpos p)))
  end.

Definition float_floor (f : PrimFloat.float) : option Z :=
  match FloatOps.Prim2SF f with
  | SpecFloat.S754_zero _ => Some 0%Z
  | SpecFloat.S754_finite s m e =>
      Some (Z.shiftl (if s then Zneg m else Zpos m) e)
  | _ => None
  end.

#[export] Instance float_number : JsNumber PrimFloat.float := {|
  ofZ := float_ofZ;
  nadd := PrimFloat.add;
  nsub := PrimFloat.sub;
  nmul := PrimFloat.mul;
  ndiv := PrimFloat.div;
  nsqrt := PrimFloat.sqrt;
  nltb := PrimFloat.ltb;
  neqb := PrimFloat.eqb;
  nfloor := float_floor
|}.

(** ** types.ts *)

Inductive AppMode : Type := TREE | SCATTER | ZOOM.

(** The union type of [GestureState.gesture]; [Gesture_None] is the
    string ['None']. *)
Inductive Gesture : Type := Closed_Fist | Open_Palm | Pinch | Gesture_None.

Definition AppMode_eqb (a b : AppMode) : bool :=
  match a, b with
  | TREE, TREE | SCATTER, SCATTER | ZOOM, ZOOM => true
  | _, _ => false
  end.

Definition Gesture_eqb (a b : Gesture) : bool :=
  match a, b with
  | Closed_Fist, Closed_Fist | Open_Palm, Open_Palm
  | Pinch, Pinch | Gesture_None, Gesture_None => true
  | _, _ => false
  end.

Section DataModel.
Context {num : Type} `{JsNumber num}.

(** [{ x, y }]: a landmark (its [z] is never read) and a hand position. *)
Record Point : Type := { x : num; y : num }.

Record GestureState : Type := {
  isHandDetected : bool;
  gesture : Gesture;
  handPosition : Point
}.

Record PhotoData : Type := {
  id : string;
  url : string;
  position : num * num * num;
  scatterPosition : num * num * num;
  rotation : num * num * num
}.

(** What [HandLandmarker.detectForVideo] returns, as far as it is read:
    [landmarks], one list of landmarks per detected hand ([None] when the
    property is missing). *)
Record HandLandmarkerResult : Type := {
  landmarks : option (list (list Point))
}.

(** ** GestureService.processDetections *)

(** [landmarks[i]]: [undefined] out of range. *)
Definition at_index (l : list Point) (i : nat) : option Point := nth_error l i.

(** [dist(p1, p2)]; reading [.x] of [undefined] throws (here [None]). *)
Definition dist (p1 p2 : option Point) : option num :=
  match p1, p2 with
  | Some a, Some b =>
      Some (nsqrt (pow2 (x a - x b) + pow2 (y a - y b)))%js
  | _, _ => None
  end.

(** [a && b] where either side may throw: [b] is evaluated only when [a]
    is [true]. *)
Definition and_then (a b : option bool) : option bool :=
  match a with
  | Some true => b
  | Some false => Some false
  | None => None
  end.

Definition lt_const (d : option num) (c : num) : option bool :=
  option_map (fun v => (v <? c)%js) d.

Definition gt_const (d : option num) (c : num) : option bool :=
  option_map (fun v => (v >? c)%js) d.

(** The [forEach] that accumulates [xSum] and [ySum]. *)
Definition xSum (l : list Point) : num :=
  fold_left (fun acc p => (acc + x p)%js) l (ofZ 0).

Definition ySum (l : list Point) : num :=
  fold_left (fun acc p => (acc + y p)%js) l (ofZ 0).

Definition length_num (l : list Point) : num := ofZ (Z.of_nat (List.length l)).

Definition handX (l : list Point) : num := (xSum l / length_num l)%js.
Definition handY (l : list Point) : num := (ySum l / length_num l)%js.

Definition isFist (l : list Point) : option bool :=
  let indexTip := at_index l 8 in
  let middleTip := at_index l 12 in
  let ringTip := at_index l 16 in
  let pinkyTip := at_index l 20 in
  let wrist := at_index l 0 in
  and_then (lt_const (dist indexTip wrist) (decimal 2 10))
 (and_then (lt_const (dist middleTip wrist) (decimal 2 10))
 (and_then (lt_const (dist ringTip wrist) (decimal 2 10))
           (lt_const (dist pinkyTip wrist) (decimal 2 10)))).

Definition isOpen (l : list Point) : option bool :=
  let indexTip := at_index l 8 in
  let middleTip := at_index l 12 in
  let ringTip := at_index l 16 in
  let pinkyTip := at_index l 20 in
  let wrist := at_index l 0 in
  and_then (gt_const (dist indexTip wrist) (decimal 3 10))
 (and_then (gt_const (dist middleTip wrist) (decimal 3 10))
 (and_then (gt_const (dist ringTip wrist) (decimal 3 10))
           (gt_const (dist pinkyTip wrist) (decimal 3 10)))).

Definition pinchDist (l : list Point) : option num :=
  dist (at_index l 4) (at_index l 8).

(** The state handed to [onResult] when no hand is in the frame. *)
Definition noHandState : GestureState :=
  {| isHandDetected := false;
     gesture := Gesture_None;
     handPosition := {| x := decimal 5 10; y := decimal 5 10 |} |}.

(** [processDetections(result)]: the state it passes to [onResult], or
    [None] when it throws before reaching that call (a [TypeError] on a
    missing landmark; the caller catches it). *)
Definition processDetections (result : HandLandmarkerResult)
  : option GestureState :=
  match landmarks result with
  | None | Some [] => Some noHandState
  | Some (l :: _) =>
      match pinchDist l with
      | None => None
      | Some pd =>
        match isFist l with
        | None => None
        | Some fist =>
          match isOpen l with
          | None => None
          | Some open =>
              let detectedGesture :=
                if fist then Closed_Fist
                else if (pd <? decimal 8 100)%js then Pinch
                else if open then Open_Palm
                else Gesture_None in
              Some {| isHandDetected := true;
                      gesture := detectedGesture;
                      handPosition := {| x := (ofZ 1 - handX l)%js;
                                         y := handY l |} |}
          end
        end
      end
  end.

End DataModel.

Arguments Point num : clear implicits.
Arguments GestureState num : clear implicits.
Arguments PhotoData num : clear implicits.
Arguments HandLandmarkerResult num : clear implicits.

(** ** GestureService: fields, scheduler and loop *)

(** A handle on an [HTMLVideoElement]; what is read off it changes from
    one animation frame to the next and comes with each tick. *)
Definition VideoRef : Type := nat.

Section Service.
Context {num : Type} `{JsNumber num}.

Record VideoProps : Type := {
  readyState : N;
  videoWidth : N;
  videoHeight : N;
  currentTime : num
}.

(** What the world answers during one run of [loop]: the properties of
    each video element, and the outcome of
    [handLandmarker.detectForVideo(video, performance.now())]
    ([None]: the call throws). *)
Record Tick : Type := {
  videoProps : VideoRef -> VideoProps;
  detectForVideo : option (HandLandmarkerResult num)
}.

Record GestureService : Type := {
  handLandmarker : bool;            (* non-null once initialize() has resolved *)
  video : option VideoRef;
  lastVideoTime : num;
  requestRef : option positive      (* handles are integers greater than zero *)
}.

(** What an observer sees the service do, in order. *)
Inductive Effect : Type :=
| DetectForVideo                    (* the Landmark Provider is called *)
| ProcessDetections                 (* the classifier is called on its answer *)
| OnResult (g : GestureState num)   (* the registered callback is called with g *)
| ConsoleWarn.                      (* console.warn in the catch block *)

(** The service together with the browser's animation-frame queue. *)
Record Runtime : Type := {
  service : GestureService;
  rafQueue : list positive;         (* requested, neither run nor cancelled *)
  rafNext : positive;               (* a handle never handed out yet *)
  trace : list Effect               (* latest effect first *)
}.

(** [new GestureService(onResult)] in a browser with no frame requested. *)
Definition newService : GestureService :=
  {| handLandmarker := false;
     video := None;
     lastVideoTime := ofZ (-1);
     requestRef := None |}.

Definition newRuntime : Runtime :=
  {| service := newService; rafQueue := []; rafNext := 1%positive; trace := [] |}.

Definition emit (e : Effect) (rt : Runtime) : Runtime :=
  {| service := service rt;
     rafQueue := rafQueue rt;
     rafNext := rafNext rt;
     trace := e :: trace rt |}.

Definition set_service (s : GestureService) (rt : Runtime) : Runtime :=
  {| service := s;
     rafQueue := rafQueue rt;
     rafNext := rafNext rt;
     trace := trace rt |}.

Definition set_handLandmarker (s : GestureService) : GestureService :=
  {| handLandmarker := true;
     video := video s;
     lastVideoTime := lastVideoTime s;
     requestRef := requestRef s |}.

Definition set_video (v : VideoRef) (s : GestureService) : GestureService :=
  {| handLandmarker := handLandmarker s;
     video := Some v;
     lastVideoTime := lastVideoTime s;
     requestRef := requestRef s |}.

Definition set_lastVideoTime (t : num) (s : GestureService) : GestureService :=
  {| handLandmarker := handLandmarker s;
     video := video s;
     lastVideoTime := t;
     requestRef := requestRef s |}.

Definition set_requestRef (r : positive) (s : GestureService) : GestureService :=
  {| handLandmarker := handLandmarker s;
     video := video s;
     lastVideoTime := lastVideoTime s;
     requestRef := Some r |}.

(** [requestAnimationFrame(this.loop)]: a fresh handle, queued. *)
Definition requestAnimationFrame (rt : Runtime) : positive * Runtime :=
  (rafNext rt,
   {| service := service rt;
      rafQueue := rafQueue rt ++ [rafNext rt];
      rafNext := Pos.succ (rafNext rt);
      trace := trace rt |}).

(** [cancelAnimationFrame(h)]. *)
Definition cancelAnimationFrame (h : positive) (rt : Runtime) : Runtime :=
  {| service := service rt;
     rafQueue := filter (fun k => negb (Pos.eqb k h)) (rafQueue rt);
     rafNext := rafNext rt;
     trace := trace rt |}.

(** [await initialize()] has resolved. *)
Definition initialize (rt : Runtime) : Runtime :=
  set_service (set_handLandmarker (service rt)) rt.

(** The inner guard of [loop]: the video holds a decoded frame that was
    not processed yet. *)
Definition frameReady (p : VideoProps) (last : num) : bool :=
  (2 <=? readyState p)%N
  && (0 <? videoWidth p)%N
  && (0 <? videoHeight p)%N
  && (currentTime p !== last)%js.

(** The [try { ... } catch] of [loop]. *)
Definition detectAndProcess (o : Tick) (rt : Runtime) : Runtime :=
  match detectForVideo o with
  | Some detections =>
      match processDetections detections with
      | Some g =>
          emit (OnResult g) (emit ProcessDetections (emit DetectForVideo rt))
      | None =>
          emit ConsoleWarn (emit ProcessDetections (emit DetectForVideo rt))
      end
  | None => emit ConsoleWarn (emit DetectForVideo rt)
  end.

(** The guarded block of [loop]: poll the video, and on an accepted frame
    record its time and run the detection. *)
Definition pollFrame (o : Tick) (rt : Runtime) : Runtime :=
  match video (service rt) with
  | Some v =>
      if handLandmarker (service rt) then
        if frameReady (videoProps o v) (lastVideoTime (service rt)) then
          detectAndProcess o
            (set_service
               (set_lastVideoTime (currentTime (videoProps o v)) (service rt))
               rt)
        else rt
      else rt
  | None => rt
  end.

(** [this.requestRef = requestAnimationFrame(this.loop)]. *)
Definition reschedule (rt : Runtime) : Runtime :=
  let (h, rt') := requestAnimationFrame rt in
  set_service (set_requestRef h (service rt')) rt'.

(** One run of [loop]. *)
Definition loop (o : Tick) (rt : Runtime) : Runtime :=
  reschedule (pollFrame o rt).

(** [start(videoElement)]. *)
Definition start (v : VideoRef) (o : Tick) (rt : Runtime) : Runtime :=
  loop o (set_service (set_video v (service rt)) rt).

(** [stop()]. *)
Definition stop (rt : Runtime) : Runtime :=
  match requestRef (service rt) with
  | Some h => cancelAnimationFrame h rt
  | None => rt
  end.

(** The browser runs the callback registered under [h], if it is still
    queued. *)
Definition fire (h : positive) (o : Tick) (rt : Runtime) : Runtime :=
  if existsb (Pos.eqb h) (rafQueue rt) then
    loop o
      {| service := service rt;
         rafQueue := filter (fun k => negb (Pos.eqb k h)) (rafQueue rt);
         rafNext := rafNext rt;
         trace := trace rt |}
  else rt.

(** What can happen to a service between two calls of [start]. *)
Inductive Idle : Type :=
| Frame (h : positive) (o : Tick)   (* the browser reaches animation frame h *)
| Stop                              (* stop() once more *)
| Initialize.                       (* initialize() resolves *)

Definition idle_step (rt : Runtime) (e : Idle) : Runtime :=
  match e with
  | Frame h o => fire h o rt
  | Stop => stop rt
  | Initialize => initialize rt
  end.

Definition run_idle (es : list Idle) (rt : Runtime) : Runtime :=
  fold_left idle_step es rt.

(** How often the Landmark Provider, the classifier and the callback
    were called so far. *)
Definition is_detect (e : Effect) : bool :=
  match e with DetectForVideo => true | _ => false end.

Definition is_classification (e : Effect) : bool :=
  match e with ProcessDetections => true | _ => false end.

Definition is_onResult (e : Effect) : bool :=
  match e with OnResult _ => true | _ => false end.

Definition count (p : Effect -> bool) (rt : Runtime) : nat :=
  List.length (filter p (trace rt)).

(** At most the request recorded in [requestRef] is queued: the state of
    a service started once, whatever number of frames it has seen. *)
Definition singleLoop (rt : Runtime) : Prop :=
  forall h, In h (rafQueue rt) -> requestRef (service rt) = Some h.

End Service.

Arguments VideoProps num : clear implicits.
Arguments Tick num : clear implicits.
Arguments GestureService num : clear implicits.
Arguments Effect num : clear implicits.
Arguments Runtime num : clear implicits.
Arguments Idle num : clear implicits.

(** ** App.tsx: state, the gesture transition effect and photo upload *)

Section App.
Context {num : Type} `{JsNumber num}.

(** The [useState] cells the transition effect reads and writes. *)
Record AppState : Type := {
  mode : AppMode;
  photos : list (PhotoData num);
  selectedPhotoId : option string;
  gestureState : GestureState num
}.

Definition initialState : AppState :=
  {| mode := TREE;
     photos := [];
     selectedPhotoId := None;
     gestureState := noHandState |}.

Definition setMode (m : AppMode) (s : AppState) : AppState :=
  {| mode := m;
     photos := photos s;
     selectedPhotoId := selectedPhotoId s;
     gestureState := gestureState s |}.

Definition setSelectedPhotoId (i : option string) (s : AppState) : AppState :=
  {| mode := mode s;
     photos := photos s;
     selectedPhotoId := i;
     gestureState := gestureState s |}.

Definition setGestureState (g : GestureState num) (s : AppState) : AppState :=
  {| mode := mode s;
     photos := photos s;
     selectedPhotoId := selectedPhotoId s;
     gestureState := g |}.

Definition setPhotos (ps : list (PhotoData num)) (s : AppState) : AppState :=
  {| mode := mode s;
     photos := ps;
     selectedPhotoId := selectedPhotoId s;
     gestureState := gestureState s |}.

(** Truthiness of a [string | null]: [null] and the empty string are
    falsy. *)
Definition truthy (i : option string) : bool :=
  match i with
  | None => false
  | Some EmptyString => false
  | Some (String _ _) => true
  end.

(** [Math.floor(Math.random() * photos.length)], for the value [random]
    that [Math.random()] returns. *)
Definition randomIdx (random : num) (ps : list (PhotoData num)) : option Z :=
  nfloor (random * ofZ (Z.of_nat (List.length ps)))%js.

(** [photos[randomIdx]]: [undefined] unless the index is one of the
    array. *)
Definition photoAt (ps : list (PhotoData num)) (i : option Z)
  : option (PhotoData num) :=
  match i with
  | Some z => if (z <? 0)%Z then None else nth_error ps (Z.to_nat z)
  | None => None
  end.

(** The body of the effect "State Transition Logic based on Gestures":
    the state after the updates it requests, [None] when it throws. *)
Definition transitionEffect (random : num) (s : AppState) : option AppState :=
  if negb (isHandDetected (gestureState s)) then
    if negb (AppMode_eqb (mode s) TREE) then
      Some (setSelectedPhotoId None (setMode TREE s))
    else Some s
  else if Gesture_eqb (gesture (gestureState s)) Closed_Fist
          && negb (AppMode_eqb (mode s) TREE) then
    Some (setSelectedPhotoId None (setMode TREE s))
  else if Gesture_eqb (gesture (gestureState s)) Open_Palm then
    if AppMode_eqb (mode s) TREE then Some (setMode SCATTER s) else Some s
  else if Gesture_eqb (gesture (gestureState s)) Pinch then
    if negb (AppMode_eqb (mode s) ZOOM) && (0 <? List.length (photos s))%nat then
      if negb (truthy (selectedPhotoId s)) then
        match photoAt (photos s) (randomIdx random (photos s)) with
        | Some p => Some (setSelectedPhotoId (Some (id p)) (setMode ZOOM s))
        | None => None
        end
      else Some (setMode ZOOM s)
    else Some s
  else Some s.

(** [handleFileUpload]: [newPhotos] are the records built from the chosen
    files (identifier, object URL and random placement come from the
    browser); [None] when the input has no [files]. *)
Definition handleFileUpload (newPhotos : option (list (PhotoData num)))
    (s : AppState) : AppState :=
  match newPhotos with
  | Some l => setPhotos (photos s ++ l) s
  | None => s
  end.

(** A new GestureState arrives ([setGestureState] in the service
    callback) and the effect runs on it. *)
Definition gestureUpdate (random : num) (g : GestureState num) (s : AppState)
  : option AppState :=
  transitionEffect random (setGestureState g s).

(** Photos are uploaded and the effect runs again ([photos] is one of
    its dependencies). *)
Definition photoUpload (random : num) (newPhotos : option (list (PhotoData num)))
    (s : AppState) : option AppState :=
  transitionEffect random (handleFileUpload newPhotos s).

Inductive AppEvent : Type :=
| NewGesture (random : num) (g : GestureState num)
| Upload (random : num) (newPhotos : option (list (PhotoData num)))
| Rerun (random : num).              (* the effect runs after a render *)

Definition app_step (s : AppState) (e : AppEvent) : option AppState :=
  match e with
  | NewGesture random g => gestureUpdate random g s
  | Upload random newPhotos => photoUpload random newPhotos s
  | Rerun random => transitionEffect random s
  end.

Inductive reachable : AppState -> Prop :=
| reachable_initial : reachable initialState
| reachable_step s e s' :
    reachable s -> app_step s e = Some s' -> reachable s'.

(** The selected photo reference is valid: set only in Zoom, and then the
    identifier of a photo of the collection. *)
Definition selectionValid (s : AppState) : Prop :=
  match selectedPhotoId s with
  | None => True
  | Some i => mode s = ZOOM /\ exists p, In p (photos s) /\ id p = i
  end.






End App.

Arguments AppState num : clear implicits.
Arguments AppEvent num : clear implicits.

(** ** The classifier as the design document words it

    [classify(hand: HandPose|null) -> GestureState], written from the
    text of the document, to be compared with [processDetections]. *)

Section Classify.
Context {num : Type} `{JsNumber num}.

(** Anatomical indices of a hand pose. *)
Definition WRIST : nat := 0.
Definition THUMB_TIP : nat := 4.
Definition INDEX_TIP : nat := 8.
Definition MIDDLE_TIP : nat := 12.
Definition RING_TIP : nat := 16.
Definition PINKY_TIP : nat := 20.

(** The four fingertips the fist and open-palm rules look at. *)
Definition fingertips : list nat := [INDEX_TIP; MIDDLE_TIP; RING_TIP; PINKY_TIP].

(** A hand pose has 21 landmarks; no hand is [None]. *)
Definition validInput (hand : option (list (Point num))) : Prop :=
  match hand with
  | Some pose => List.length pose = 21
  | None => True
  end.

(** What the Landmark Provider hands over for zero or one hand. *)
Definition detectionsOf (hand : option (list (Point num)))
  : HandLandmarkerResult num :=
  {| landmarks := Some match hand with Some pose => [pose] | None => [] end |}.

Definition landmark (pose : list (Point num)) (i : nat) : Point num :=
  nth i pose {| x := ofZ 0; y := ofZ 0 |}.

(** Euclidean distance in the normalised plane. *)
Definition distance (p q : Point num) : num :=
  nsqrt ((x p - x q) * (x p - x q) + (y p - y q) * (y p - y q))%js.

(** Arithmetic mean of one coordinate over the 21 landmarks. *)
Definition mean (coordinate : Point num -> num) (pose : list (Point num)) : num :=
  (fold_left nadd (map coordinate pose) (ofZ 0) / ofZ 21)%js.

Definition centroid (pose : list (Point num)) : Point num :=
  {| x := mean (@x num) pose; y := mean (@y num) pose |}.

Definition closedFistRule (pose : list (Point num)) : bool :=
  forallb (fun tip => (distance (landmark pose tip) (landmark pose WRIST)
                       <? decimal 2 10)%js) fingertips.

Definition pinchRule (pose : list (Point num)) : bool :=
  (distance (landmark pose THUMB_TIP) (landmark pose INDEX_TIP)
   <? decimal 8 100)%js.

Definition openPalmRule (pose : list (Point num)) : bool :=
  forallb (fun tip => (distance (landmark pose tip) (landmark pose WRIST)
                       >? decimal 3 10)%js) fingertips.

(** First match wins; [Gesture_None] when no rule matches. *)
Fixpoint firstMatch (rules : list (bool * Gesture)) : Gesture :=
  match rules with
  | [] => Gesture_None
  | (true, g) :: _ => g
  | (false, _) :: rest => firstMatch rest
  end.

Definition classify (hand : option (list (Point num))) : GestureState num :=
  match hand with
  | None =>
      {| isHandDetected := false;
         gesture := Gesture_None;
         handPosition := {| x := decimal 5 10; y := decimal 5 10 |} |}
  | Some pose =>
      {| isHandDetected := true;
         gesture := firstMatch [(closedFistRule pose, Closed_Fist);
                                (pinchRule pose, Pinch);
                                (openPalmRule pose, Open_Palm)];
         handPosition := {| x := (ofZ 1 - x (centroid pose))%js;
                            y := y (centroid pose) |} |}
  end.

End Classify.

(** A point of the unit square. *)
Definition inUnitSquare (p : Point R) : Prop :=
  (0 <= x p <= 1 /\ 0 <= y p <= 1)%R.

(** A uniform draw: cut [0,1) into as many equal parts as there are
    photos; the photo at position [i] is drawn when the random number
    falls in part [i]. *)
Definition drawnAt (random : R) (ps : list (PhotoData R)) (p : PhotoData R)
  : Prop :=
  exists i : nat,
    nth_error ps i = Some p
    /\ (INR i / INR (List.length ps) <= random
        < (INR i + 1) / INR (List.length ps))%R.

(** ** Sample inputs *)

Section Samples.
Context {num : Type} `{JsNumber num}.

Definition pt (a b : num) : Point num := {| x := a; y := b |}.

(** A pose whose landmarks sit at the centre of the image, except the
    thumb tip at [thumb] and the four other fingertips at height [tipY]. *)
Definition poseWith (thumb : Point num) (tipY : num) : list (Point num) :=
  let c := pt (decimal 5 10) (decimal 5 10) in
  let tip := pt (decimal 5 10) tipY in
  [c; c; c; c; thumb; c; c; c; tip; c; c; c; tip; c; c; c; tip; c; c; c; tip].

(** Fingertips 0.25 above the wrist, thumb tip 0.03 from the index tip. *)
Definition pinchPose : list (Point num) :=
  poseWith (pt (decimal 5 10) (decimal 28 100)) (decimal 25 100).

(** Fingertips 0.1 above the wrist. *)
Definition fistPose : list (Point num) :=
  poseWith (pt (decimal 5 10) (decimal 45 100)) (decimal 4 10).

(** Fingertips 0.35 above the wrist, thumb far away. *)
Definition openPose : list (Point num) :=
  poseWith (pt (decimal 9 10) (decimal 9 10)) (decimal 15 100).

Definition samplePhoto (name : string) : PhotoData num :=
  {| id := name;
     url := name;
     position := (ofZ 0, ofZ 0, ofZ 0);
     scatterPosition := (ofZ 0, ofZ 0, ofZ 0);
     rotation := (ofZ 0, ofZ 0, ofZ 0) |}.

Definition gestureOf (detected : bool) (g : Gesture) : GestureState num :=
  {| isHandDetected := detected;
     gesture := g;
     handPosition := pt (decimal 5 10) (decimal 5 10) |}.

(** An application state holding three photos. *)
Definition sampleState (m : AppMode) (selected : option string) : AppState num :=
  {| mode := m;
     photos := [samplePhoto "a"; samplePhoto "b"; samplePhoto "c"];
     selectedPhotoId := selected;
     gestureState := noHandState |}.


(** A decoded frame of a 640x480 video at playback time [t]. *)
Definition frameAt (t : num) (detections : option (HandLandmarkerResult num))
  : Tick num :=
  {| videoProps := fun _ =>
       {| readyState := 4; videoWidth := 640; videoHeight := 480;
          currentTime := t |};
     detectForVideo := detections |}.

(** A decoded frame at time [t] on which the provider finds no hand. *)
Definition noHandFrame (t : Z) : Tick num :=
  frameAt (ofZ t) (Some (detectionsOf None)).

(** A service that was initialised and started once, on a frame at time 0. *)
Definition startedOnce : Runtime num :=
  start 0 (noHandFrame 0) (initialize newRuntime).

(** The same service after a second [start], on a frame at time 1. *)
Definition startedTwice : Runtime num :=
  start 0 (noHandFrame 1) startedOnce.

End Samples.

(** ** More of the service: every call a user can make *)

Section ServiceRuns.
Context {num : Type} `{JsNumber num}.

(** What can happen to a service: the methods a user calls, and the
    browser reaching an animation frame. *)
Inductive ServiceEvent : Type :=
| CallStart (v : VideoRef) (o : Tick num)     (* start(videoElement) *)
| CallStop                                    (* stop() *)
| InitResolved                                (* initialize() resolves *)
| AnimationFrame (h : positive) (o : Tick num).

Definition service_step (rt : Runtime num) (e : ServiceEvent) : Runtime num :=
  match e with
  | CallStart v o => start v o rt
  | CallStop => stop rt
  | InitResolved => initialize rt
  | AnimationFrame h o => fire h o rt
  end.

Definition run_service (es : list ServiceEvent) (rt : Runtime num) : Runtime num :=
  fold_left service_step es rt.

Definition is_InitResolved (e : ServiceEvent) : bool :=
  match e with InitResolved => true | _ => false end.

Definition is_warn (e : Effect num) : bool :=
  match e with ConsoleWarn => true | _ => false end.

End ServiceRuns.

Arguments ServiceEvent num : clear implicits.

Section ServiceOutcomes.
Context {num : Type} `{JsNumber num}.

(** What one run of [loop] can add to the trace (latest effect first):
    nothing, a published state, or a warning after the classifier or the
    provider threw. *)
Inductive LoopOutcome : list (Effect num) -> Prop :=
| Skipped : LoopOutcome []
| Published result g :
    processDetections result = Some g ->
    LoopOutcome [OnResult g; ProcessDetections; DetectForVideo]
| ClassifierThrew result :
    processDetections result = None ->
    LoopOutcome [ConsoleWarn; ProcessDetections; DetectForVideo]
| ProviderThrew : LoopOutcome [ConsoleWarn; DetectForVideo].

End ServiceOutcomes.

(** ** Trigonometry and vectors *)

(** [Math.sin], [Math.cos] and [Math.PI]; given on the reals. *)
Class JsTrig (num : Type) : Type := {
  nsin : num -> num;
  ncos : num -> num;
  npi  : num
}.

#[export] Instance R_trig : JsTrig R := {| nsin := sin; ncos := cos; npi := PI |}.

Section Vectors.
Context {num : Type} `{JsNumber num}.

(** A [THREE.Vector3] (or the angles of a [THREE.Euler]). *)
Record Vec3 : Type := { vx : num; vy : num; vz : num }.

(** [new THREE.Vector3(...t)] for a triple of [PhotoData]. *)
Definition vec3_of (t : num * num * num) : Vec3 :=
  let '(a, b, c) := t in {| vx := a; vy := b; vz := c |}.

(** [v.setScalar(s)]. *)
Definition scalar3 (s : num) : Vec3 := {| vx := s; vy := s; vz := s |}.

(** [current += (target - current) * factor]: the easing step the frame
    callbacks apply to angles and heights. *)
Definition ease (current target factor : num) : num :=
  (current + (target - current) * factor)%js.

End Vectors.

Arguments Vec3 num : clear implicits.

(** ** App.tsx: the records [handleFileUpload] builds *)

Section FileUpload.
Context {num : Type} `{JsNumber num} `{JsTrig num}.

(** What the browser supplies for one chosen file: [uuidv4()],
    [URL.createObjectURL(file)], and the eight values of [Math.random()],
    in the order the callback draws them. *)
Record FileDraws : Type := {
  uuid : string;
  objectURL : string;
  draw_h : num;
  draw_theta : num;
  draw_scatter : num * num * num;
  draw_rotation : num * num * num
}.

(** The callback of [Array.from(e.target.files).map]. *)
Definition newPhotoData (d : FileDraws) : PhotoData num :=
  let h := ((draw_h d - decimal 5 10) * ofZ 15)%js in
  let hNorm := ((h + ofZ 10) / ofZ 20)%js in
  let r := ((ofZ 1 - hNorm) * ofZ 6)%js in
  let theta := (draw_theta d * npi * ofZ 2)%js in
  let '(s1, s2, s3) := draw_scatter d in
  {| id := uuid d;
     url := objectURL d;
     position := ((r * ncos theta)%js, h, (r * nsin theta)%js);
     scatterPosition := (((s1 - decimal 5 10) * ofZ 20)%js,
                         ((s2 - decimal 5 10) * ofZ 20)%js,
                         ((s3 - decimal 5 10) * ofZ 20)%js);
     rotation := draw_rotation d |}.

(** [handleFileUpload] on the files of the input ([None]: no [files]). *)
Definition uploadFiles (files : option (list FileDraws)) (s : AppState num)
  : AppState num :=
  handleFileUpload (option_map (map newPhotoData) files) s.

End FileUpload.

Arguments FileDraws num : clear implicits.

(** A value [Math.random()] can return. *)
Definition unitDraw (r : R) : Prop := (0 <= r < 1)%R.

Definition unitDraws (t : R * R * R) : Prop :=
  let '(a, b, c) := t in unitDraw a /\ unitDraw b /\ unitDraw c.

(** ** App.tsx: loading, the camera button and the service *)

Section WebApp.
Context {num : Type} `{JsNumber num}.

Record WebApp : Type := {
  loading : bool;
  webcamEnabled : bool;
  pendingGetUserMedia : nat;        (* runs of startWebcam waiting for the stream *)
  gestureService : Runtime num      (* gestureServiceRef.current in its browser *)
}.

(** After the first render: [initVision] has created the service and
    waits for [initialize()]. *)
Definition mountedApp : WebApp :=
  {| loading := true;
     webcamEnabled := false;
     pendingGetUserMedia := 0;
     gestureService := newRuntime |}.

(** The video element of the page, [videoRef.current]. *)
Definition videoElement : VideoRef := 0.

(** [!webcamEnabled && !loading]: the "Enable Camera" button is shown. *)
Definition enableButtonShown (a : WebApp) : bool :=
  negb (webcamEnabled a) && negb (loading a).

Inductive WebEvent : Type :=
| VisionReady                       (* initialize() resolves; setLoading(false) *)
| ClickEnableCamera                 (* onClick={startWebcam} *)
| CameraGranted (o : Tick num)      (* getUserMedia resolves *)
| CameraDenied                      (* getUserMedia rejects: console.error, alert *)
| BrowserFrame (h : positive) (o : Tick num).

(** One event; [None] when it cannot happen in this state (the button is
    not shown, no [getUserMedia] call is waiting). *)
Definition web_step (a : WebApp) (e : WebEvent) : option WebApp :=
  match e with
  | VisionReady =>
      Some {| loading := false;
              webcamEnabled := webcamEnabled a;
              pendingGetUserMedia := pendingGetUserMedia a;
              gestureService := initialize (gestureService a) |}
  | ClickEnableCamera =>
      if enableButtonShown a then
        Some {| loading := loading a;
                webcamEnabled := webcamEnabled a;
                pendingGetUserMedia := S (pendingGetUserMedia a);
                gestureService := gestureService a |}
      else None
  | CameraGranted o =>
      match pendingGetUserMedia a with
      | S n =>
          Some {| loading := loading a;
                  webcamEnabled := true;
                  pendingGetUserMedia := n;
                  gestureService := start videoElement o (gestureService a) |}
      | O => None
      end
  | CameraDenied =>
      match pendingGetUserMedia a with
      | S n =>
          Some {| loading := loading a;
                  webcamEnabled := webcamEnabled a;
                  pendingGetUserMedia := n;
                  gestureService := gestureService a |}
      | O => None
      end
  | BrowserFrame h o =>
      Some {| loading := loading a;
              webcamEnabled := webcamEnabled a;
              pendingGetUserMedia := pendingGetUserMedia a;
              gestureService := fire h o (gestureService a) |}
  end.

Fixpoint run_web (es : list WebEvent) (a : WebApp) : option WebApp :=
  match es with
  | [] => Some a
  | e :: es' =>
      match web_step a e with
      | Some a' => run_web es' a'
      | None => None
      end
  end.

Definition is_VisionReady (e : WebEvent) : bool :=
  match e with VisionReady => true | _ => false end.

End WebApp.

Arguments WebApp num : clear implicits.
Arguments WebEvent num : clear implicits.

(** ** PhotoCloud.tsx *)

Section PhotoCloud.
Context {num : Type} `{JsNumber num} `{JsTrig num}.
Variable natan2 : num -> num -> num.        (* Math.atan2 *)
Variable parseFloat : string -> num.        (* parseFloat *)

(** [photo.id === selectedId]. *)
Definition isSelected (photo : PhotoData num) (selectedId : option string) : bool :=
  match selectedId with
  | Some i => String.eqb (id photo) i
  | None => false
  end.

(** What [PhotoItem]'s frame callback aims at. *)
Record Targets : Type := {
  targetPos : Vec3 num;
  targetScale : Vec3 num;
  targetRot : Vec3 num;
  lerpFactor : num
}.

Definition photoTargets (data : PhotoData num) (mode : AppMode)
    (selected : bool) (elapsedTime : num) : Targets :=
  let lerpFactor :=
    if AppMode_eqb mode ZOOM && selected then decimal 2 10 else decimal 1 10 in
  if selected && AppMode_eqb mode ZOOM then
    {| targetPos := {| vx := ofZ 0; vy := ofZ 0; vz := ofZ 25 |};
       targetScale := scalar3 (ofZ 6);
       targetRot := {| vx := ofZ 0; vy := ofZ 0; vz := ofZ 0 |};
       lerpFactor := lerpFactor |}
  else if AppMode_eqb mode TREE then
    let '(p0, _, p2) := position data in
    {| targetPos := vec3_of (position data);
       targetScale := scalar3 (decimal 15 10);
       targetRot := {| vx := ofZ 0; vy := natan2 p0 p2; vz := ofZ 0 |};
       lerpFactor := lerpFactor |}
  else
    let '(s0, s1, s2) := scatterPosition data in
    let '(r0, r1, r2) := rotation data in
    {| targetPos :=
         {| vx := s0;
            vy := (s1 + nsin (elapsedTime + parseFloat (id data))
                        * decimal 5 1000)%js;
            vz := s2 |};
       targetScale := scalar3 (decimal 15 10);
       targetRot := {| vx := (r0 + elapsedTime * decimal 1 10)%js;
                       vy := (r1 + elapsedTime * decimal 1 10)%js;
                       vz := r2 |};
       lerpFactor := lerpFactor |}.

(** The three "rotation lerp" assignments of the frame callback. *)
Definition rotationFrame (t : Targets) (rot : Vec3 num) : Vec3 num :=
  {| vx := ease (vx rot) (vx (targetRot t)) (lerpFactor t);
     vy := ease (vy rot) (vy (targetRot t)) (lerpFactor t);
     vz := ease (vz rot) (vz (targetRot t)) (lerpFactor t) |}.

(** [PhotoCloud]: the photo items it renders, each with its [isSelected]. *)
Definition photoItems (photos : list (PhotoData num)) (selectedId : option string)
  : list (PhotoData num * bool) :=
  map (fun photo => (photo, isSelected photo selectedId)) photos.

(** The item is the one shown in front of the camera. *)
Definition inFocus (mode : AppMode) (item : PhotoData num * bool) : bool :=
  snd item && AppMode_eqb mode ZOOM.

(** The rotation of an item over a run of frames, [times] being the
    elapsed time each frame reads off the clock. *)
Definition rotationRun (data : PhotoData num) (mode : AppMode) (selected : bool)
    (times : list num) (rot : Vec3 num) : Vec3 num :=
  fold_left (fun r t => rotationFrame (photoTargets data mode selected t) r)
    times rot.

End PhotoCloud.

Arguments Targets num : clear implicits.

(** ** Experience.tsx: CameraController *)

Section Camera.
Context {num : Type} `{JsNumber num} `{JsTrig num}.

(** [angleRef] and [heightRef]. *)
Record CameraRefs : Type := { angleRef : num; heightRef : num }.

Definition initialCamera : CameraRefs :=
  {| angleRef := ofZ 0; heightRef := ofZ 0 |}.

(** The refs after one frame. *)
Definition cameraFrame (mode : AppMode) (g : GestureState num) (delta : num)
    (c : CameraRefs) : CameraRefs :=
  if AppMode_eqb mode ZOOM then c
  else if isHandDetected g then
    let targetAngle := ((x (handPosition g) - decimal 5 10) * ofZ 6)%js in
    let targetHeight := ((decimal 5 10 - y (handPosition g)) * ofZ 30)%js in
    {| angleRef := ease (angleRef c) targetAngle (decimal 1 10);
       heightRef := ease (heightRef c) targetHeight (decimal 1 10) |}
  else
    {| angleRef := (angleRef c + delta * decimal 15 100)%js;
       heightRef := ease (heightRef c) (ofZ 0) (decimal 5 100) |}.

(** The point the camera position is eased towards in that frame. *)
Definition cameraTarget (mode : AppMode) (c : CameraRefs) : Vec3 num :=
  if AppMode_eqb mode ZOOM then {| vx := ofZ 0; vy := ofZ 0; vz := ofZ 35 |}
  else {| vx := (nsin (angleRef c) * ofZ 32)%js;
          vy := heightRef c;
          vz := (ncos (angleRef c) * ofZ 32)%js |}.

(** What one frame is given: the props and the time since the last
    frame. *)
Record CameraTick : Type := {
  tickMode : AppMode;
  tickGesture : GestureState num;
  tickDelta : num
}.

Definition cameraRun (ticks : list CameraTick) (c : CameraRefs) : CameraRefs :=
  fold_left (fun c t => cameraFrame (tickMode t) (tickGesture t) (tickDelta t) c)
    ticks c.

End Camera.

Arguments CameraRefs num : clear implicits.
Arguments CameraTick num : clear implicits.

(** The hand position of the tick is one the classifier reports. *)
Definition handInUnitSquare (t : CameraTick R) : Prop :=
  isHandDetected (tickGesture t) = true ->
  inUnitSquare (handPosition (tickGesture t)).

(** ** Particles.tsx *)

Definition COUNT : nat := 1200.
Definition TREE_HEIGHT : Z := 20.
Definition TREE_RADIUS_BASE : Z := 8.

Section Particles.
Context {num : Type} `{JsNumber num} `{JsTrig num}.

Record Particle : Type := {
  posTree : Vec3 num;
  posScatter : Vec3 num;
  currentPos : Vec3 num;
  type : option Z;                  (* Math.floor(...): no integer for NaN *)
  speed : num
}.

(** The eight values of [Math.random()] one pass of the generating loop
    draws, in order. *)
Record ParticleDraws : Type := {
  pdraw_h : num;
  pdraw_r : num;
  pdraw_theta : num;
  pdraw_scatter : num * num * num;
  pdraw_type : num;
  pdraw_speed : num
}.

(** The body of the generating loop of [useMemo]. *)
Definition newParticle (d : ParticleDraws) : Particle :=
  let h := ((pdraw_h d - decimal 5 10) * ofZ TREE_HEIGHT)%js in
  let hNorm := ((h + ofZ TREE_HEIGHT / ofZ 2) / ofZ TREE_HEIGHT)%js in
  let r := ((ofZ 1 - hNorm) * ofZ TREE_RADIUS_BASE * pdraw_r d)%js in
  let theta := (pdraw_theta d * npi * ofZ 2)%js in
  let xTree := (r * ncos theta)%js in
  let zTree := (r * nsin theta)%js in
  let yTree := h in
  let spread := ofZ 30 in
  let '(s1, s2, s3) := pdraw_scatter d in
  {| posTree := {| vx := xTree; vy := yTree; vz := zTree |};
     posScatter := {| vx := ((s1 - decimal 5 10) * spread)%js;
                      vy := ((s2 - decimal 5 10) * spread)%js;
                      vz := ((s3 - decimal 5 10) * spread)%js |};
     currentPos := {| vx := xTree; vy := yTree; vz := zTree |};
     type := nfloor (pdraw_type d * ofZ 3)%js;
     speed := (decimal 5 100 + pdraw_speed d * decimal 5 100)%js |}.

(** [particles]: [COUNT] passes of the loop. *)
Definition generateParticles (draws : nat -> ParticleDraws) : list Particle :=
  map (fun i => newParticle (draws i)) (seq 0 COUNT).

(** [idx0], [idx1], [idx2] of the frame callback. *)
Record Counters : Type := { idx0 : nat; idx1 : nat; idx2 : nat }.

(** The counter of mesh [k]. *)
Definition counterOf (c : Counters) (k : nat) : nat :=
  match k with
  | 0 => idx0 c
  | 1 => idx1 c
  | _ => idx2 c
  end.

(** [p.type === k]. *)
Definition type_is (p : Particle) (k : Z) : bool :=
  match type p with
  | Some t => Z.eqb t k
  | None => false
  end.

(** "Update appropriate instanced mesh": the mesh and the instance index
    of the [setMatrixAt] call made for [p], and the counters after it. *)
Definition setMatrixAt_call (p : Particle) (c : Counters)
  : (nat * nat) * Counters :=
  if type_is p 0 then
    ((0, idx0 c), {| idx0 := S (idx0 c); idx1 := idx1 c; idx2 := idx2 c |})
  else if type_is p 1 then
    ((1, idx1 c), {| idx0 := idx0 c; idx1 := S (idx1 c); idx2 := idx2 c |})
  else
    ((2, idx2 c), {| idx0 := idx0 c; idx1 := idx1 c; idx2 := S (idx2 c) |}).

(** The [setMatrixAt] calls of one frame, in order. *)
Fixpoint meshWritesFrom (ps : list Particle) (c : Counters) : list (nat * nat) :=
  match ps with
  | [] => []
  | p :: ps' =>
      let (w, c') := setMatrixAt_call p c in w :: meshWritesFrom ps' c'
  end.

Definition meshWrites (ps : list Particle) : list (nat * nat) :=
  meshWritesFrom ps {| idx0 := 0; idx1 := 0; idx2 := 0 |}.

(** [COUNT / 3]: the number of instances each mesh is created with. *)
Definition meshCapacity : nat := COUNT / 3.

(** The mesh a particle is drawn in. *)
Definition meshOf (p : Particle) : nat := fst (fst (setMatrixAt_call p
  {| idx0 := 0; idx1 := 0; idx2 := 0 |})).

(** How many particles are drawn in mesh [k]. *)
Definition meshLoad (ps : list Particle) (k : nat) : nat :=
  List.length (filter (fun p => Nat.eqb (meshOf p) k) ps).

End Particles.

Arguments Particle num : clear implicits.
Arguments ParticleDraws num : clear implicits.

(** * Properties *)

(** ** The classifier *)

Section ClassifierFacts.
Context {num : Type} `{JsNumber num}.

Lemma fold_left_coordinate (f : Point num -> num) (l : list (Point num)) (a : num) :
  fold_left (fun acc p => (acc + f p)%js) l a = fold_left nadd (map f l) a.
Proof.
  revert a; induction l as [|p l IH]; intro a; simpl.
  - reflexivity.
  - apply IH.
Qed.

Lemma handX_mean (pose : list (Point num)) :
  List.length pose = 21 -> handX pose = x (centroid pose).
Proof.
  intro Hlen. unfold handX, centroid, mean, xSum, length_num; simpl.
  rewrite Hlen, fold_left_coordinate. reflexivity.
Qed.

Lemma handY_mean (pose : list (Point num)) :
  List.length pose = 21 -> handY pose = y (centroid pose).
Proof.
  intro Hlen. unfold handY, centroid, mean, ySum, length_num; simpl.
  rewrite Hlen, fold_left_coordinate. reflexivity.
Qed.

(** On a pose of 21 landmarks every landmark that is read exists. *)
Lemma at_index_landmark (pose : list (Point num)) (i : nat) :
  i < List.length pose -> at_index pose i = Some (landmark pose i).
Proof.
  intro Hi. unfold at_index, landmark.
  apply nth_error_nth'. exact Hi.
Qed.

Lemma dist_distance (p q : Point num) :
  dist (Some p) (Some q) = Some (distance p q).
Proof. reflexivity. Qed.

Lemma isFist_rule (pose : list (Point num)) :
  List.length pose = 21 -> isFist pose = Some (closedFistRule pose).
Proof.
  intro Hlen. unfold isFist, closedFistRule, fingertips.
  rewrite !at_index_landmark by (rewrite Hlen; unfold INDEX_TIP; lia).
  rewrite !dist_distance. simpl.
  unfold INDEX_TIP, MIDDLE_TIP, RING_TIP, PINKY_TIP, WRIST.
  destruct (distance (landmark pose 8) (landmark pose 0) <? decimal 2 10)%js;
    simpl; [|reflexivity].
  destruct (distance (landmark pose 12) (landmark pose 0) <? decimal 2 10)%js;
    simpl; [|reflexivity].
  destruct (distance (landmark pose 16) (landmark pose 0) <? decimal 2 10)%js;
    simpl; [|reflexivity].
  rewrite andb_true_r. reflexivity.
Qed.

Lemma isOpen_rule (pose : list (Point num)) :
  List.length pose = 21 -> isOpen pose = Some (openPalmRule pose).
Proof.
  intro Hlen. unfold isOpen, openPalmRule, fingertips.
  rewrite !at_index_landmark by (rewrite Hlen; unfold INDEX_TIP; lia).
  rewrite !dist_distance. simpl.
  unfold INDEX_TIP, MIDDLE_TIP, RING_TIP, PINKY_TIP, WRIST.
  destruct (decimal 3 10 <? distance (landmark pose 8) (landmark pose 0))%js;
    simpl; [|reflexivity].
  destruct (decimal 3 10 <? distance (landmark pose 12) (landmark pose 0))%js;
    simpl; [|reflexivity].
  destruct (decimal 3 10 <? distance (landmark pose 16) (landmark pose 0))%js;
    simpl; [|reflexivity].
  rewrite andb_true_r. reflexivity.
Qed.

Lemma pinchDist_distance (pose : list (Point num)) :
  List.length pose = 21 ->
  pinchDist pose
  = Some (distance (landmark pose THUMB_TIP) (landmark pose INDEX_TIP)).
Proof.
  intro Hlen. unfold pinchDist.
  rewrite !at_index_landmark by (rewrite Hlen; lia).
  reflexivity.
Qed.

End ClassifierFacts.

Section ClassifierTheorems.
Context {num : Type} `{JsNumber num}.

(** [processDetections] computes what the worded classifier computes. *)
Lemma processDetections_as_worded (hand : option (list (Point num))) :
  validInput hand ->
  processDetections (detectionsOf hand) = Some (classify hand).
Proof.
  destruct hand as [pose|]; simpl; intro Hlen.
  - unfold processDetections; simpl.
    rewrite (pinchDist_distance pose Hlen), (isFist_rule pose Hlen),
      (isOpen_rule pose Hlen).
    rewrite (handX_mean pose Hlen), (handY_mean pose Hlen).
    unfold pinchRule.
    destruct (closedFistRule pose); [reflexivity|].
    destruct (distance (landmark pose THUMB_TIP) (landmark pose INDEX_TIP)
              <? decimal 8 100)%js; [reflexivity|].
    destruct (openPalmRule pose); reflexivity.
  - reflexivity.
Qed.

(** C1. On no hand and on every pose of 21 landmarks, [processDetections]
    hands to [onResult] exactly the state the document describes: for no
    hand (no landmark list, or an empty one) [{false, None, (0.5, 0.5)}];
    for a pose, [isHandDetected = true],
    the hand position [(1 - cx, cy)] with [(cx, cy)] the mean of the 21
    landmarks, and the gesture of the first matching rule among
    Closed_Fist (four fingertips nearer than 0.2 to the wrist), Pinch
    (thumb tip nearer than 0.08 to the index tip), Open_Palm (four
    fingertips farther than 0.3 from the wrist), else None. *)
Theorem processDetections_classify (hand : option (list (Point num))) :
  validInput hand ->
  processDetections (detectionsOf hand) = Some (classify hand)
  /\ (hand = None ->
      classify hand
      = {| isHandDetected := false;
           gesture := Gesture_None;
           handPosition := {| x := decimal 5 10; y := decimal 5 10 |} |})
  /\ processDetections {| landmarks := None |} = Some (classify None).
Proof.
  intro Hvalid. split; [|split].
  - apply processDetections_as_worded. exact Hvalid.
  - intros ->. reflexivity.
  - reflexivity.
Qed.



End ClassifierTheorems.

(** The comparison theorem at a pinching hand, on binary64. *)
Lemma processDetections_classify_pinch :
  processDetections (detectionsOf (Some (@pinchPose PrimFloat.float _)))
  = Some (classify (Some pinchPose))
  /\ gesture (classify (Some (@pinchPose PrimFloat.float _))) = Pinch.
Proof.
  split.
  - apply (@processDetections_classify PrimFloat.float _ (Some pinchPose)).
    reflexivity.
  - vm_compute. reflexivity.
Defined.

(** The document's sample poses, run on binary64. *)
Example fist_before_pinch :
  option_map (@gesture _)
    (processDetections (detectionsOf (Some (@fistPose PrimFloat.float _))))
  = Some Closed_Fist.
Proof. vm_compute. reflexivity. Qed.

Example open_palm_sample :
  option_map (@gesture _)
    (processDetections (detectionsOf (Some (@openPose PrimFloat.float _))))
  = Some Open_Palm.
Proof. vm_compute. reflexivity. Qed.

(** A pose with fewer landmarks than the rules read makes the function
    throw before it reaches [onResult]. *)
Example short_pose_throws :
  processDetections
    {| landmarks := Some [[pt (decimal 5 10) (decimal 5 10)]] |}
  = (None : option (GestureState PrimFloat.float)).
Proof. vm_compute. reflexivity. Qed.

(** ** The hand position, over the reals *)

Lemma sum_bounds (l : list R) (a : R) :
  Forall (fun v => 0 <= v <= 1)%R l ->
  (a <= fold_left Rplus l a <= a + IZR (Z.of_nat (List.length l)))%R.
Proof.
  intro Hall; revert a.
  induction Hall as [|v l Hv Hall IH]; intro a.
  - simpl. lra.
  - change (fold_left Rplus (v :: l) a) with (fold_left Rplus l (a + v)%R).
    specialize (IH (a + v)%R).
    rewrite length_cons, Nat2Z.inj_succ, succ_IZR.
    lra.
Qed.

Lemma mean_bounds (coordinate : Point R -> R) (pose : list (Point R)) :
  List.length pose = 21 ->
  Forall (fun p => 0 <= coordinate p <= 1)%R pose ->
  (0 <= mean coordinate pose <= 1)%R.
Proof.
  intros Hlen Hall. unfold mean; simpl.
  assert (Hmap : Forall (fun v => 0 <= v <= 1)%R (map coordinate pose)).
  { apply Forall_map. exact Hall. }
  pose proof (sum_bounds _ 0 Hmap) as Hsum.
  rewrite length_map, Hlen in Hsum.
  change (IZR (Z.of_nat 21)) with 21%R in Hsum.
  lra.
Qed.

(** C6. For no hand and for every pose of 21 landmarks in the unit square,
    the classifier returns a state, and its hand position lies in the unit
    square. *)
Theorem handPosition_in_unit_square (hand : option (list (Point R))) :
  validInput hand ->
  (forall pose, hand = Some pose -> Forall inUnitSquare pose) ->
  exists g,
    processDetections (detectionsOf hand) = Some g
    /\ inUnitSquare (handPosition g).
Proof.
  intros Hvalid Hsquare.
  exists (classify hand). split.
  - apply processDetections_as_worded. exact Hvalid.
  - destruct hand as [pose|]; unfold inUnitSquare; simpl.
    + specialize (Hsquare pose eq_refl). simpl in Hvalid.
      assert (Hx : (0 <= mean (@x R) pose <= 1)%R).
      { apply mean_bounds; [exact Hvalid|].
        eapply Forall_impl; [|exact Hsquare]. intros p Hp. apply Hp. }
      assert (Hy : (0 <= mean (@y R) pose <= 1)%R).
      { apply mean_bounds; [exact Hvalid|].
        eapply Forall_impl; [|exact Hsquare]. intros p Hp. apply Hp. }
      unfold mean in Hx, Hy; simpl in Hx, Hy.
      lra.
    + unfold decimal; simpl. lra.
Qed.

Lemma pinchPose_in_unit_square : Forall inUnitSquare (@pinchPose R _).
Proof.
  unfold pinchPose, poseWith, pt, decimal.
  repeat constructor; simpl; lra.
Qed.

Lemma handPosition_in_unit_square_pinch :
  exists g,
    processDetections (detectionsOf (Some (@pinchPose R _))) = Some g
    /\ inUnitSquare (handPosition g).
Proof.
  apply (handPosition_in_unit_square (Some pinchPose)).
  - reflexivity.
  - intros pose [= <-]. exact pinchPose_in_unit_square.
Defined.

(** ** The mode machine *)

Lemma AppMode_eqb_eq (a b : AppMode) : AppMode_eqb a b = true <-> a = b.
Proof. destruct a, b; simpl; split; congruence. Qed.

Lemma Gesture_eqb_eq (a b : Gesture) : Gesture_eqb a b = true <-> a = b.
Proof. destruct a, b; simpl; split; congruence. Qed.

Section ModeMachine.
Context {num : Type} `{JsNumber num}.

(** C2. On a new GestureState with no hand detected, or with the gesture
    Closed_Fist, the effect sets the mode to Tree and clears the selected
    photo when the mode is not Tree, and changes nothing when the mode is
    already Tree. *)
Theorem hand_loss_or_fist_returns_to_tree
    (random : num) (g : GestureState num) (s : AppState num) :
  isHandDetected g = false \/ gesture g = Closed_Fist ->
  exists s',
    gestureUpdate random g s = Some s'
    /\ photos s' = photos s
    /\ (mode s <> TREE -> mode s' = TREE /\ selectedPhotoId s' = None)
    /\ (mode s = TREE ->
        mode s' = TREE /\ selectedPhotoId s' = selectedPhotoId s).
Proof.
  intros Hg. unfold gestureUpdate, transitionEffect; simpl.
  destruct (isHandDetected g) eqn:Hd; simpl.
  - destruct Hg as [Hg|Hg]; [discriminate|]. rewrite Hg; simpl.
    destruct (mode s) eqn:Hm; simpl; eexists; (split; [reflexivity|]);
      simpl; repeat split; try congruence; auto.
  - destruct (mode s) eqn:Hm; simpl; eexists; (split; [reflexivity|]);
      simpl; repeat split; try congruence; auto.
Qed.



End ModeMachine.

(** ** The random draw, over the reals *)

Lemma randomIdx_floor (random : R) (ps : list (PhotoData R)) :
  (0 <= random < 1)%R -> ps <> [] ->
  exists i : nat,
    randomIdx random ps = Some (Z.of_nat i)
    /\ i < List.length ps
    /\ (INR i <= random * INR (List.length ps) < INR i + 1)%R.
Proof.
  intros Hr Hne.
  assert (Hn : (0 < INR (List.length ps))%R).
  { apply lt_0_INR. destruct ps; [congruence|simpl; lia]. }
  unfold randomIdx; simpl.
  rewrite <- INR_IZR_INZ.
  set (r := (random * INR (List.length ps))%R).
  destruct (base_Int_part r) as [Hlo Hhi].
  assert (Hr0 : (0 <= r)%R) by (unfold r; nra).
  assert (Hr1 : (r < INR (List.length ps))%R) by (unfold r; nra).
  assert (Hz0 : (0 <= Int_part r)%Z).
  { apply Z.lt_succ_r, lt_IZR. rewrite succ_IZR. lra. }
  assert (Hz1 : (Int_part r < Z.of_nat (List.length ps))%Z).
  { apply lt_IZR. rewrite <- INR_IZR_INZ. lra. }
  exists (Z.to_nat (Int_part r)).
  rewrite Z2Nat.id by exact Hz0.
  split; [reflexivity|]. split; [lia|].
  rewrite INR_IZR_INZ, Z2Nat.id by exact Hz0. lra.
Qed.

Lemma photoAt_nat (ps : list (PhotoData R)) (i : nat) :
  photoAt ps (Some (Z.of_nat i)) = nth_error ps i.
Proof.
  unfold photoAt.
  destruct (Z.ltb_spec (Z.of_nat i) 0) as [Hneg|_]; [lia|].
  rewrite Nat2Z.id. reflexivity.
Qed.

(** The photo the effect picks is drawn uniformly, and the pick never
    fails. *)
Lemma random_photo_drawn (random : R) (ps : list (PhotoData R)) :
  (0 <= random < 1)%R -> ps <> [] ->
  exists p, photoAt ps (randomIdx random ps) = Some p /\ drawnAt random ps p.
Proof.
  intros Hr Hne.
  destruct (randomIdx_floor random ps Hr Hne) as (i & Hidx & Hi & Hint).
  destruct (nth_error ps i) as [p|] eqn:Hp.
  2:{ apply nth_error_None in Hp. lia. }
  exists p. rewrite Hidx, photoAt_nat. split; [exact Hp|].
  exists i. split; [exact Hp|].
  assert (Hn : (0 < INR (List.length ps))%R).
  { apply lt_0_INR. lia. }
  set (n := INR (List.length ps)) in *.
  split.
  - apply Rmult_le_reg_r with n; [exact Hn|].
    unfold Rdiv. rewrite Rmult_assoc, Rinv_l by lra. lra.
  - apply Rmult_lt_reg_r with n; [exact Hn|].
    unfold Rdiv. rewrite Rmult_assoc, Rinv_l by lra. lra.
Qed.

(** Conversely every photo is picked, each on its own part of [0,1). *)
Lemma random_photo_each (random : R) (ps : list (PhotoData R))
    (i : nat) (p : PhotoData R) :
  nth_error ps i = Some p ->
  (INR i / INR (List.length ps) <= random < (INR i + 1) / INR (List.length ps))%R ->
  photoAt ps (randomIdx random ps) = Some p.
Proof.
  intros Hp Hint.
  assert (Hi : i < List.length ps).
  { apply nth_error_Some. congruence. }
  assert (Hn : (0 < INR (List.length ps))%R).
  { apply lt_0_INR. lia. }
  set (n := INR (List.length ps)) in *.
  assert (Hlo : (INR i <= random * n)%R).
  { replace (INR i) with (INR i / n * n)%R by (field; lra).
    apply Rmult_le_compat_r; lra. }
  assert (Hhi : (random * n < INR i + 1)%R).
  { replace (INR i + 1)%R with ((INR i + 1) / n * n)%R by (field; lra).
    apply Rmult_lt_compat_r; lra. }
  assert (Hidx : randomIdx random ps = Some (Z.of_nat i)).
  { unfold randomIdx; simpl. rewrite <- INR_IZR_INZ. fold n.
    f_equal. symmetry. apply Int_part_spec. rewrite <- INR_IZR_INZ. lra. }
  rewrite Hidx, photoAt_nat. exact Hp.
Qed.




Lemma hand_loss_or_fist_returns_to_tree_sample :
  exists s' : AppState PrimFloat.float,
    gestureUpdate (decimal 5 10) (gestureOf false Gesture_None)
      (sampleState ZOOM (Some "a"%string)) = Some s'
    /\ mode s' = TREE /\ selectedPhotoId s' = None.
Proof.
  destruct (@hand_loss_or_fist_returns_to_tree PrimFloat.float _
              (decimal 5 10) (gestureOf false Gesture_None)
              (sampleState ZOOM (Some "a"%string)))
    as (s' & Hs & _ & Hleave & _).
  - left. reflexivity.
  - exists s'. split; [exact Hs|]. apply Hleave. discriminate.
Defined.

(** The document's mode-machine scenarios, run on binary64. *)
Example open_palm_then_hand_loss :
  option_map (fun s' => (mode s', selectedPhotoId s'))
    (match gestureUpdate (num:=PrimFloat.float) (decimal 5 10)
             (gestureOf true Open_Palm) (sampleState TREE None) with
     | Some s1 =>
         if AppMode_eqb (mode s1) SCATTER
         then gestureUpdate (decimal 5 10) (gestureOf false Gesture_None) s1
         else None
     | None => None
     end)
  = Some (TREE, None).
Proof. vm_compute. reflexivity. Qed.

Example pinch_selects_one_of_three :
  option_map (fun s' => (mode s', selectedPhotoId s'))
    (gestureUpdate (num:=PrimFloat.float) (decimal 5 10)
       (gestureOf true Pinch) (sampleState TREE None))
  = Some (ZOOM, Some "b"%string).
Proof. vm_compute. reflexivity. Qed.

(** ** The selected photo reference *)

Section Selection.
Context {num : Type} `{JsNumber num}.

Lemma photoAt_In (ps : list (PhotoData num)) (i : option Z) (p : PhotoData num) :
  photoAt ps i = Some p -> In p ps.
Proof.
  unfold photoAt. destruct i as [z|]; [|discriminate].
  destruct (z <? 0)%Z; [discriminate|].
  apply nth_error_In.
Qed.

Lemma selectionValid_outside_zoom (s : AppState num) :
  selectionValid s -> mode s <> ZOOM -> selectedPhotoId s = None.
Proof.
  unfold selectionValid. destruct (selectedPhotoId s) as [i|]; [|reflexivity].
  intros [Hm _] Hn. contradiction.
Qed.

Lemma setGestureState_valid (g : GestureState num) (s : AppState num) :
  selectionValid s -> selectionValid (setGestureState g s).
Proof. unfold selectionValid; simpl. auto. Qed.

(** Uploads append: every photo stays, so a valid selection stays valid. *)
Lemma handleFileUpload_appends
    (newPhotos : option (list (PhotoData num))) (s : AppState num) :
  exists l, photos (handleFileUpload newPhotos s) = photos s ++ l.
Proof.
  destruct newPhotos as [l|]; simpl.
  - exists l. reflexivity.
  - exists []. rewrite app_nil_r. reflexivity.
Qed.

Lemma handleFileUpload_valid
    (newPhotos : option (list (PhotoData num))) (s : AppState num) :
  selectionValid s -> selectionValid (handleFileUpload newPhotos s).
Proof.
  destruct newPhotos as [l|]; [|auto].
  unfold selectionValid; simpl.
  destruct (selectedPhotoId s) as [i|]; [|auto].
  intros (Hm & p & Hin & Hid). split; [exact Hm|].
  exists p. split; [|exact Hid]. apply in_or_app. left. exact Hin.
Qed.

Lemma transitionEffect_valid (random : num) (s s' : AppState num) :
  selectionValid s -> transitionEffect random s = Some s' -> selectionValid s'.
Proof.
  intros Hv. unfold transitionEffect.
  destruct (negb (isHandDetected (gestureState s))).
  { destruct (negb (AppMode_eqb (mode s) TREE)); intros [= <-];
      [exact I|exact Hv]. }
  destruct (Gesture_eqb (gesture (gestureState s)) Closed_Fist
            && negb (AppMode_eqb (mode s) TREE)).
  { intros [= <-]. exact I. }
  destruct (Gesture_eqb (gesture (gestureState s)) Open_Palm).
  { destruct (AppMode_eqb (mode s) TREE) eqn:Hm; intros [= <-]; [|exact Hv].
    apply AppMode_eqb_eq in Hm.
    unfold selectionValid; simpl.
    rewrite (selectionValid_outside_zoom s Hv); [exact I|congruence]. }
  destruct (Gesture_eqb (gesture (gestureState s)) Pinch);
    [|intros [= <-]; exact Hv].
  destruct (negb (AppMode_eqb (mode s) ZOOM)
            && (0 <? List.length (photos s))%nat);
    [|intros [= <-]; exact Hv].
  destruct (negb (truthy (selectedPhotoId s))) eqn:Ht.
  - destruct (photoAt (photos s) (randomIdx random (photos s))) as [p|] eqn:Hp;
      [|discriminate].
    intros [= <-]. unfold selectionValid; simpl.
    split; [reflexivity|]. exists p.
    split; [exact (photoAt_In _ _ _ Hp)|reflexivity].
  - intros [= <-]. revert Hv. unfold selectionValid; simpl.
    destruct (selectedPhotoId s) as [i|]; [|auto].
    intros (_ & Hp). split; [reflexivity|exact Hp].
Qed.

Lemma app_step_valid (s s' : AppState num) (e : AppEvent num) :
  selectionValid s -> app_step s e = Some s' -> selectionValid s'.
Proof.
  intros Hv. destruct e as [random g|random newPhotos|random]; simpl.
  - apply transitionEffect_valid, setGestureState_valid, Hv.
  - apply transitionEffect_valid, handleFileUpload_valid, Hv.
  - apply transitionEffect_valid, Hv.
Qed.

(** C5. In every reachable state the selected photo reference is set only
    in Zoom and then names a photo of the collection: this holds in the
    initial state, every gesture update and every photo upload keeps it,
    and an upload only appends photos. *)
Theorem selection_valid_in_reachable_states :
  selectionValid (@initialState num _)
  /\ (forall random g (s s' : AppState num),
         selectionValid s -> gestureUpdate random g s = Some s' ->
         selectionValid s')
  /\ (forall random newPhotos (s s' : AppState num),
         selectionValid s -> photoUpload random newPhotos s = Some s' ->
         selectionValid s')
  /\ (forall newPhotos (s : AppState num),
         exists l, photos (handleFileUpload newPhotos s) = photos s ++ l)
  /\ (forall s : AppState num, reachable s -> selectionValid s).
Proof.
  split; [exact I|].
  split.
  { intros random g s s' Hv. apply (app_step_valid s s' (NewGesture random g) Hv). }
  split.
  { intros random newPhotos s s' Hv.
    apply (app_step_valid s s' (Upload random newPhotos) Hv). }
  split; [exact handleFileUpload_appends|].
  intros s Hr. induction Hr as [|s e s' _ IH Hstep].
  - exact I.
  - exact (app_step_valid s s' e IH Hstep).
Qed.

(** X11. Once the effect has run, running it again changes nothing,
    whatever the random draw: the re-runs React makes after the state
    updates the effect asked for are idle. *)
Lemma transitionEffect_settles (random random' : num) (s s' : AppState num) :
  transitionEffect random s = Some s' ->
  transitionEffect random' s' = Some s'.
Proof.
  unfold transitionEffect.
  destruct (isHandDetected (gestureState s)) eqn:Hd; simpl.
  2:{ destruct (mode s) eqn:Hm; simpl; intros [= <-]; simpl;
        rewrite Hd; simpl; rewrite ?Hm; reflexivity. }
  destruct (gesture (gestureState s)) eqn:Hg; simpl.
  - destruct (mode s) eqn:Hm; simpl; intros [= <-]; simpl;
      rewrite Hd, Hg; simpl; rewrite ?Hm; reflexivity.
  - destruct (mode s) eqn:Hm; simpl; intros [= <-]; simpl;
      rewrite Hd, Hg; simpl; rewrite ?Hm; reflexivity.
  - destruct (mode s) eqn:Hm; simpl;
      destruct (0 <? List.length (photos s))%nat eqn:Hn; simpl;
      try (intros [= <-]; simpl; rewrite Hd, Hg; simpl; rewrite ?Hm, ?Hn;
           reflexivity);
      (destruct (truthy (selectedPhotoId s)); simpl;
       [|destruct (photoAt (photos s) (randomIdx random (photos s)));
         [|discriminate]];
       intros [= <-]; simpl; rewrite Hd, Hg; reflexivity).
  - intros [= <-]. rewrite Hd, Hg. reflexivity.
Qed.

End Selection.

(** ** The gesture service *)

Section ServiceFacts.
Context {num : Type} `{JsNumber num}.

Lemma reschedule_trace (rt : Runtime num) : trace (reschedule rt) = trace rt.
Proof. reflexivity. Qed.

Lemma reschedule_lastVideoTime (rt : Runtime num) :
  lastVideoTime (service (reschedule rt)) = lastVideoTime (service rt).
Proof. reflexivity. Qed.

Lemma reschedule_queue (rt : Runtime num) :
  rafQueue (reschedule rt) = rafQueue rt ++ [rafNext rt]
  /\ requestRef (service (reschedule rt)) = Some (rafNext rt).
Proof. split; reflexivity. Qed.

Lemma detectAndProcess_frame (o : Tick num) (rt : Runtime num) :
  service (detectAndProcess o rt) = service rt
  /\ rafQueue (detectAndProcess o rt) = rafQueue rt
  /\ rafNext (detectAndProcess o rt) = rafNext rt.
Proof.
  unfold detectAndProcess.
  destruct (detectForVideo o) as [d|]; [destruct (processDetections d)|];
    repeat split.
Qed.

Lemma pollFrame_queue (o : Tick num) (rt : Runtime num) :
  rafQueue (pollFrame o rt) = rafQueue rt
  /\ rafNext (pollFrame o rt) = rafNext rt
  /\ requestRef (service (pollFrame o rt)) = requestRef (service rt).
Proof.
  unfold pollFrame.
  destruct (video (service rt)) as [v|]; [|repeat split].
  destruct (handLandmarker (service rt)); [|repeat split].
  destruct (frameReady _ _); [|repeat split].
  destruct (detectAndProcess_frame o
              (set_service
                 (set_lastVideoTime (currentTime (videoProps o v)) (service rt))
                 rt)) as (Hs & Hq & Hn).
  rewrite Hs, Hq, Hn. repeat split.
Qed.

(** A frame is refused when its time is the recorded one, or the video
    holds no decoded frame. *)
Lemma frameReady_refused (p : VideoProps num) (last : num) :
  (currentTime p === last)%js = true
  \/ (readyState p < 2)%N \/ videoWidth p = 0%N \/ videoHeight p = 0%N ->
  frameReady p last = false.
Proof.
  unfold frameReady. intros [Ht|[Hr|[Hw|Hh]]].
  - rewrite Ht. simpl. rewrite !andb_false_r. reflexivity.
  - destruct (N.leb_spec 2 (readyState p)) as [Hle|_]; [lia|reflexivity].
  - rewrite Hw. simpl. rewrite andb_false_r. reflexivity.
  - rewrite Hh. simpl. rewrite andb_false_r. reflexivity.
Qed.

Lemma pollFrame_refused (o : Tick num) (rt : Runtime num) (v : VideoRef) :
  video (service rt) = Some v ->
  frameReady (videoProps o v) (lastVideoTime (service rt)) = false ->
  pollFrame o rt = rt.
Proof.
  intros Hv Hf. unfold pollFrame. rewrite Hv, Hf.
  destruct (handLandmarker (service rt)); reflexivity.
Qed.

Lemma pollFrame_accepted (o : Tick num) (rt : Runtime num) (v : VideoRef) :
  video (service rt) = Some v ->
  handLandmarker (service rt) = true ->
  frameReady (videoProps o v) (lastVideoTime (service rt)) = true ->
  pollFrame o rt
  = detectAndProcess o
      (set_service
         (set_lastVideoTime (currentTime (videoProps o v)) (service rt)) rt).
Proof.
  intros Hv Hl Hf. unfold pollFrame. rewrite Hv, Hl, Hf. reflexivity.
Qed.

(** One run of the loop calls the provider, the classifier and the
    callback at most once each. *)
Lemma detectAndProcess_counts (o : Tick num) (rt : Runtime num) :
  count is_detect (detectAndProcess o rt) = S (count is_detect rt)
  /\ count is_classification (detectAndProcess o rt)
     <= S (count is_classification rt)
  /\ count is_onResult (detectAndProcess o rt) <= S (count is_onResult rt).
Proof.
  unfold detectAndProcess, count.
  destruct (detectForVideo o) as [d|]; [destruct (processDetections d)|];
    simpl; repeat split; lia.
Qed.

Lemma pollFrame_counts (o : Tick num) (rt : Runtime num) :
  count is_detect (pollFrame o rt) <= S (count is_detect rt)
  /\ count is_classification (pollFrame o rt) <= S (count is_classification rt)
  /\ count is_onResult (pollFrame o rt) <= S (count is_onResult rt).
Proof.
  unfold pollFrame.
  destruct (video (service rt)) as [v|]; [|repeat split; lia].
  destruct (handLandmarker (service rt)); [|repeat split; lia].
  destruct (frameReady _ _); [|repeat split; lia].
  destruct (detectAndProcess_counts o
              (set_service
                 (set_lastVideoTime (currentTime (videoProps o v)) (service rt))
                 rt)) as (Hd & Hc & Hr).
  unfold count in *; simpl in *. repeat split; lia.
Qed.

Lemma loop_next (o : Tick num) (rt : Runtime num) :
  rafNext (loop o rt) = Pos.succ (rafNext rt).
Proof.
  destruct (pollFrame_queue o rt) as (_ & Hn & _).
  unfold loop, reschedule; simpl. rewrite Hn. reflexivity.
Qed.

Lemma count_loop (p : Effect num -> bool) (o : Tick num) (rt : Runtime num) :
  count p (loop o rt) = count p (pollFrame o rt).
Proof. reflexivity. Qed.

(** C7. A loop run on a video whose playback time is the recorded one, or
    which holds no decoded frame (ready state under 2, zero width or zero
    height), calls neither the Landmark Provider nor the classifier; and
    two loop runs in a row that read the same playback time call each of
    them, and the callback, at most once. *)
Theorem frame_dedup (rt : Runtime num) (v : VideoRef) (o1 o2 : Tick num) :
  video (service rt) = Some v ->
  ((currentTime (videoProps o1 v) === lastVideoTime (service rt))%js = true
   \/ (readyState (videoProps o1 v) < 2)%N
   \/ videoWidth (videoProps o1 v) = 0%N
   \/ videoHeight (videoProps o1 v) = 0%N ->
   trace (loop o1 rt) = trace rt)
  /\ ((currentTime (videoProps o2 v) === currentTime (videoProps o1 v))%js = true ->
      count is_detect (loop o2 (loop o1 rt)) <= S (count is_detect rt)
      /\ count is_classification (loop o2 (loop o1 rt))
         <= S (count is_classification rt)
      /\ count is_onResult (loop o2 (loop o1 rt)) <= S (count is_onResult rt)).
Proof.
  intros Hv. split.
  - intros Hskip. unfold loop. rewrite reschedule_trace.
    rewrite (pollFrame_refused o1 rt v Hv); [reflexivity|].
    apply frameReady_refused. exact Hskip.
  - intros Hsame.
    destruct (handLandmarker (service rt)) eqn:Hl.
    + destruct (frameReady (videoProps o1 v) (lastVideoTime (service rt))) eqn:Hf.
      * (* the first run takes the frame: the second finds its time recorded *)
        assert (Hv1 : video (service (loop o1 rt)) = Some v).
        { unfold loop. rewrite (pollFrame_accepted o1 rt v Hv Hl Hf).
          unfold reschedule; simpl.
          destruct (detectAndProcess_frame o1
            (set_service
               (set_lastVideoTime (currentTime (videoProps o1 v)) (service rt))
               rt)) as (Hs & _). rewrite Hs. exact Hv. }
        assert (Ht1 : lastVideoTime (service (loop o1 rt))
                      = currentTime (videoProps o1 v)).
        { unfold loop. rewrite (pollFrame_accepted o1 rt v Hv Hl Hf).
          rewrite reschedule_lastVideoTime.
          destruct (detectAndProcess_frame o1
            (set_service
               (set_lastVideoTime (currentTime (videoProps o1 v)) (service rt))
               rt)) as (Hs & _). rewrite Hs. reflexivity. }
        rewrite !(count_loop _ o2).
        rewrite (pollFrame_refused o2 (loop o1 rt) v Hv1).
        2:{ apply frameReady_refused. left. rewrite Ht1. exact Hsame. }
        rewrite !count_loop. apply pollFrame_counts.
      * (* the first run refuses the frame: only the second may call *)
        assert (E : loop o1 rt = reschedule rt).
        { unfold loop. rewrite (pollFrame_refused o1 rt v Hv Hf). reflexivity. }
        rewrite E, !count_loop.
        destruct (pollFrame_counts o2 (reschedule rt)) as (Hd & Hc & Hr).
        unfold count in *. rewrite reschedule_trace in *. auto.
    + assert (E : loop o1 rt = reschedule rt).
      { unfold loop, pollFrame. rewrite Hv, Hl. reflexivity. }
      rewrite E, !count_loop.
      destruct (pollFrame_counts o2 (reschedule rt)) as (Hd & Hc & Hr).
      unfold count in *. rewrite reschedule_trace in *. auto.
Qed.

End ServiceFacts.

Section ServiceLifecycle.
Context {num : Type} `{JsNumber num}.

(** C8. When the Landmark Provider throws on an accepted frame, the loop
    run logs one warning, calls the callback zero times, and still
    requests the next animation frame: the new handle is queued and
    recorded, so the browser will run the loop again. *)
Theorem detection_failure_skips_frame
    (o : Tick num) (rt : Runtime num) (v : VideoRef) :
  video (service rt) = Some v ->
  handLandmarker (service rt) = true ->
  frameReady (videoProps o v) (lastVideoTime (service rt)) = true ->
  detectForVideo o = None ->
  trace (loop o rt) = ConsoleWarn :: DetectForVideo :: trace rt
  /\ count is_onResult (loop o rt) = count is_onResult rt
  /\ requestRef (service (loop o rt)) = Some (rafNext rt)
  /\ In (rafNext rt) (rafQueue (loop o rt))
  /\ (forall o', fire (rafNext rt) o' (loop o rt) <> loop o rt).
Proof.
  intros Hv Hl Hf Hthrow.
  assert (Htrace : trace (loop o rt) = ConsoleWarn :: DetectForVideo :: trace rt).
  { unfold loop. rewrite reschedule_trace, (pollFrame_accepted o rt v Hv Hl Hf).
    unfold detectAndProcess. rewrite Hthrow. reflexivity. }
  destruct (pollFrame_queue o rt) as (Hq & Hn & _).
  destruct (reschedule_queue (pollFrame o rt)) as (Hq' & Hr').
  fold (loop o rt) in Hq', Hr'. rewrite Hq, Hn in Hq'. rewrite Hn in Hr'.
  assert (Hin : In (rafNext rt) (rafQueue (loop o rt))).
  { rewrite Hq'. apply in_or_app. right. left. reflexivity. }
  split; [exact Htrace|].
  split; [unfold count; rewrite Htrace; reflexivity|].
  split; [exact Hr'|].
  split; [exact Hin|].
  intros o' E.
  assert (Hnext : rafNext (fire (rafNext rt) o' (loop o rt))
                  = Pos.succ (rafNext (loop o rt))).
  { unfold fire.
    assert (Hex : existsb (Pos.eqb (rafNext rt)) (rafQueue (loop o rt)) = true).
    { apply existsb_exists. exists (rafNext rt). split; [exact Hin|].
      apply Pos.eqb_refl. }
    rewrite Hex, loop_next. reflexivity. }
  rewrite E in Hnext. lia.
Qed.

(** The queue of a service that runs one loop holds at most the recorded
    request. *)
Lemma singleLoop_reschedule (rt : Runtime num) :
  rafQueue rt = [] -> singleLoop (reschedule rt).
Proof.
  intros Hq h. destruct (reschedule_queue rt) as (Hq' & Hr').
  rewrite Hq', Hr', Hq. simpl. intros [<-|[]]. reflexivity.
Qed.

Lemma singleLoop_newRuntime : singleLoop (@newRuntime num _).
Proof. intros h []. Qed.

Lemma singleLoop_start (v : VideoRef) (o : Tick num) (rt : Runtime num) :
  rafQueue rt = [] -> singleLoop (start v o rt).
Proof.
  intros Hq. unfold start, loop. apply singleLoop_reschedule.
  destruct (pollFrame_queue o (set_service (set_video v (service rt)) rt))
    as (Hq' & _).
  rewrite Hq'. exact Hq.
Qed.

Lemma filter_recorded (q : list positive) (h : positive) :
  (forall k, In k q -> Some h = Some k) ->
  filter (fun k => negb (Pos.eqb k h)) q = [].
Proof.
  induction q as [|k q IH]; intros Hall; simpl.
  - reflexivity.
  - assert (E : h = k) by (specialize (Hall k (or_introl eq_refl)); congruence).
    subst k. rewrite Pos.eqb_refl. simpl.
    apply IH. intros k Hk. apply Hall. right. exact Hk.
Qed.

Lemma singleLoop_fire (h : positive) (o : Tick num) (rt : Runtime num) :
  singleLoop rt -> singleLoop (fire h o rt).
Proof.
  intros Hs. unfold fire.
  destruct (existsb (Pos.eqb h) (rafQueue rt)) eqn:Hex; [|exact Hs].
  apply existsb_exists in Hex. destruct Hex as (k & Hk & Ekh).
  apply Pos.eqb_eq in Ekh. subst k.
  unfold loop. apply singleLoop_reschedule.
  match goal with |- rafQueue (pollFrame o ?r) = [] =>
    destruct (pollFrame_queue o r) as (Hq & _); rewrite Hq end.
  simpl. apply filter_recorded.
  intros k Hin. rewrite <- (Hs h Hk). apply Hs. exact Hin.
Qed.

(** [stop()] on such a service empties the queue. *)
Lemma stop_empties_queue (rt : Runtime num) :
  singleLoop rt -> rafQueue (stop rt) = [].
Proof.
  intros Hs. unfold stop.
  destruct (requestRef (service rt)) as [h|] eqn:Hr.
  - simpl. apply filter_recorded. intros k Hk.
    rewrite <- Hr. apply Hs. exact Hk.
  - destruct (rafQueue rt) as [|k q] eqn:Hq; [reflexivity|].
    assert (Hk : In k (rafQueue rt)) by (rewrite Hq; left; reflexivity).
    specialize (Hs k Hk). congruence.
Qed.

(** So the cycle start, frames, stop, start keeps a single loop. *)
Lemma singleLoop_restart (v : VideoRef) (o : Tick num) (rt : Runtime num) :
  singleLoop rt -> singleLoop (start v o (stop rt)).
Proof.
  intros Hs. apply singleLoop_start. apply stop_empties_queue. exact Hs.
Qed.

(** With nothing queued, nothing runs until [start] is called. *)
Lemma idle_step_quiet (rt : Runtime num) (e : Idle num) :
  rafQueue rt = [] ->
  rafQueue (idle_step rt e) = [] /\ trace (idle_step rt e) = trace rt.
Proof.
  intros Hq. destruct e as [h o| |]; simpl.
  - unfold fire. rewrite Hq. simpl. split; [exact Hq|reflexivity].
  - unfold stop. destruct (requestRef (service rt)); simpl.
    + rewrite Hq. split; reflexivity.
    + split; [exact Hq|reflexivity].
  - split; [exact Hq|reflexivity].
Qed.

Lemma run_idle_quiet (es : list (Idle num)) (rt : Runtime num) :
  rafQueue rt = [] ->
  rafQueue (run_idle es rt) = [] /\ trace (run_idle es rt) = trace rt.
Proof.
  revert rt. induction es as [|e es IH]; intros rt Hq; simpl.
  - split; [exact Hq|reflexivity].
  - destruct (idle_step_quiet rt e Hq) as (Hq' & Ht').
    destruct (IH (idle_step rt e) Hq') as (Hq'' & Ht'').
    split; [exact Hq''|]. rewrite Ht''. exact Ht'.
Qed.

(** X25. When the only queued animation-frame request of a service is the
    one recorded in [requestRef], [stop()] cancels it, and whatever frames
    the browser reaches afterwards, no callback is called before the next
    [start()]: nothing at all is done. *)
Theorem stop_silences_single_loop (rt : Runtime num) (es : list (Idle num)) :
  singleLoop rt ->
  rafQueue (stop rt) = []
  /\ trace (run_idle es (stop rt)) = trace rt
  /\ count is_onResult (run_idle es (stop rt)) = count is_onResult rt.
Proof.
  intros Hs.
  pose proof (stop_empties_queue rt Hs) as Hq.
  destruct (run_idle_quiet es (stop rt) Hq) as (_ & Ht).
  assert (Hstop : trace (stop rt) = trace rt).
  { unfold stop. destruct (requestRef (service rt)); reflexivity. }
  split; [exact Hq|].
  split; [rewrite Ht; exact Hstop|].
  unfold count. rewrite Ht, Hstop. reflexivity.
Qed.

(** The recorded time is written by the loop, on an accepted frame. *)
Lemma loop_records_time (o : Tick num) (rt : Runtime num) (v : VideoRef) :
  video (service rt) = Some v ->
  handLandmarker (service rt) = true ->
  frameReady (videoProps o v) (lastVideoTime (service rt)) = true ->
  lastVideoTime (service (loop o rt)) = currentTime (videoProps o v).
Proof.
  intros Hv Hl Hf.
  unfold loop. rewrite (pollFrame_accepted o rt v Hv Hl Hf).
  rewrite reschedule_lastVideoTime.
  destruct (detectAndProcess_frame o
    (set_service
       (set_lastVideoTime (currentTime (videoProps o v)) (service rt)) rt))
    as (Hs & _).
  rewrite Hs. reflexivity.
Qed.

(** C10. The recorded video time is [-1] in a new service, and neither
    [stop()] nor the assignment [start()] makes changes it; so when
    [stop()] is followed by [start()] on a frame whose playback time is
    the recorded one, the restart calls neither the Landmark Provider nor
    the classifier (it does nothing an observer sees), and the recorded
    time stays. *)
Theorem restart_keeps_dedup_marker
    (rt : Runtime num) (v : VideoRef) (o : Tick num) :
  (currentTime (videoProps o v) === lastVideoTime (service rt))%js = true ->
  lastVideoTime (@newService num _) = ofZ (-1)
  /\ lastVideoTime (service (stop rt)) = lastVideoTime (service rt)
  /\ lastVideoTime (set_video v (service (stop rt)))
     = lastVideoTime (service rt)
  /\ trace (start v o (stop rt)) = trace rt
  /\ lastVideoTime (service (start v o (stop rt)))
     = lastVideoTime (service rt).
Proof.
  intros Hsame.
  assert (Hstop : service (stop rt) = service rt /\ trace (stop rt) = trace rt).
  { unfold stop. destruct (requestRef (service rt)); split; reflexivity. }
  destruct Hstop as (Hss & Hst).
  set (rt' := set_service (set_video v (service (stop rt))) (stop rt)).
  assert (Hmark : lastVideoTime (service rt') = lastVideoTime (service rt)).
  { change (lastVideoTime (service rt'))
      with (lastVideoTime (service (stop rt))).
    rewrite Hss. reflexivity. }
  assert (Hskip : pollFrame o rt' = rt').
  { apply (pollFrame_refused o rt' v); [reflexivity|].
    apply frameReady_refused. left. rewrite Hmark. exact Hsame. }
  split; [reflexivity|].
  split; [rewrite Hss; reflexivity|].
  split; [exact Hmark|].
  assert (Hstart : start v o (stop rt) = reschedule rt').
  { unfold start. fold rt'. unfold loop. rewrite Hskip. reflexivity. }
  rewrite Hstart, reschedule_trace, reschedule_lastVideoTime.
  split; [exact Hst|exact Hmark].
Qed.

End ServiceLifecycle.

(** ** The service on sample runs (binary64) *)

Lemma selection_valid_after_pinch :
  selectionValid
    (setGestureState (gestureOf true Pinch)
       (sampleState (num:=PrimFloat.float) ZOOM (Some "b"%string))).
Proof.
  apply (proj2 (proj2 (proj2 (proj2
           (@selection_valid_in_reachable_states PrimFloat.float _))))).
  apply reachable_step
    with (s := sampleState TREE None)
         (e := NewGesture (decimal 5 10) (gestureOf true Pinch)).
  - apply reachable_step
      with (s := initialState)
           (e := Upload (decimal 5 10)
                   (Some [samplePhoto "a"; samplePhoto "b"; samplePhoto "c"]%string)).
    + apply reachable_initial.
    + vm_compute. reflexivity.
  - vm_compute. reflexivity.
Defined.

Lemma startedOnce_video :
  video (service (@startedOnce PrimFloat.float _)) = Some 0.
Proof. vm_compute. reflexivity. Qed.

Lemma frame_dedup_same_time :
  trace (loop (noHandFrame 0) (@startedOnce PrimFloat.float _))
  = trace (@startedOnce PrimFloat.float _)
  /\ count is_classification
       (loop (noHandFrame 3) (loop (noHandFrame 3) startedOnce))
     <= S (count is_classification (@startedOnce PrimFloat.float _)).
Proof.
  destruct (@frame_dedup PrimFloat.float _ startedOnce 0
              (noHandFrame 0) (noHandFrame 0) startedOnce_video) as (Hskip & _).
  destruct (@frame_dedup PrimFloat.float _ startedOnce 0
              (noHandFrame 3) (noHandFrame 3) startedOnce_video) as (_ & Htwice).
  split.
  - apply Hskip. left. vm_compute. reflexivity.
  - apply Htwice. vm_compute. reflexivity.
Defined.

Lemma detection_failure_skips_frame_sample :
  trace (loop (frameAt (ofZ 1) None) (@startedOnce PrimFloat.float _))
  = ConsoleWarn :: DetectForVideo :: trace startedOnce
  /\ In 2%positive
       (rafQueue (loop (frameAt (ofZ 1) None) (@startedOnce PrimFloat.float _))).
Proof.
  destruct (@detection_failure_skips_frame PrimFloat.float _
              (frameAt (ofZ 1) None) startedOnce 0)
    as (Htrace & _ & _ & Hin & _).
  - exact startedOnce_video.
  - vm_compute. reflexivity.
  - vm_compute. reflexivity.
  - reflexivity.
  - split; [exact Htrace|exact Hin].
Defined.

Lemma stop_silences_single_loop_sample :
  trace (run_idle [Frame 1%positive (noHandFrame 1);
                   Frame 2%positive (noHandFrame 2)]
           (stop (@startedOnce PrimFloat.float _)))
  = trace startedOnce.
Proof.
  apply (@stop_silences_single_loop PrimFloat.float _ startedOnce
           [Frame 1%positive (noHandFrame 1); Frame 2%positive (noHandFrame 2)]).
  apply singleLoop_start. reflexivity.
Defined.

(** C9 at a service started twice.  [start()] has no guard against a loop
    that is already running and [requestRef] holds one handle, so each
    [start()] begins a loop of its own and [stop()] cancels only the
    request recorded last.  The page gets there by two clicks on "Enable
    Camera" made before the first [getUserMedia] call resolves.  After
    [stop()] request 1 is still queued, and when the browser reaches it a
    third [onResult] call is made although [start()] was not called
    again.  Nor does a restart repair it: after a further [start()] and
    [stop()] request 1 is queued still, and the next frame brings a fourth
    call.  (On binary64.) *)
Lemma stop_after_two_starts_keeps_a_loop :
  option_map (@gestureService _)
    (run_web [VisionReady; ClickEnableCamera; ClickEnableCamera;
              CameraGranted (noHandFrame 0); CameraGranted (noHandFrame 1)]
       (@mountedApp PrimFloat.float _))
  = Some startedTwice
  /\ rafQueue (stop (@startedTwice PrimFloat.float _)) = [1%positive]
  /\ count is_onResult (stop (@startedTwice PrimFloat.float _)) = 2
  /\ count is_onResult
       (run_idle [Frame 1%positive (noHandFrame 2)]
          (stop (@startedTwice PrimFloat.float _))) = 3
  /\ rafQueue (stop (start 0 (noHandFrame 3)
                       (stop (@startedTwice PrimFloat.float _))))
     = [1%positive]
  /\ count is_onResult
       (stop (start 0 (noHandFrame 3) (stop (@startedTwice PrimFloat.float _))))
     = 3
  /\ count is_onResult
       (run_idle [Frame 1%positive (noHandFrame 4)]
          (stop (start 0 (noHandFrame 3)
                   (stop (@startedTwice PrimFloat.float _))))) = 4.
Proof. repeat split; vm_compute; reflexivity. Qed.

Lemma restart_keeps_dedup_marker_sample :
  trace (start 0 (noHandFrame 0) (stop (@startedOnce PrimFloat.float _)))
  = trace startedOnce
  /\ lastVideoTime
       (service (start 0 (noHandFrame 0) (stop (@startedOnce PrimFloat.float _))))
     = lastVideoTime (service startedOnce).
Proof.
  destruct (@restart_keeps_dedup_marker PrimFloat.float _ startedOnce 0
              (noHandFrame 0)) as (_ & _ & _ & Htrace & Hmark).
  - vm_compute. reflexivity.
  - split; [exact Htrace|exact Hmark].
Defined.

(** * More properties of the code *)

(** ** The service over whole runs *)

Section ServiceRunFacts.
Context {num : Type} `{JsNumber num}.

Lemma stop_keeps (rt : Runtime num) :
  service (stop rt) = service rt /\ trace (stop rt) = trace rt
  /\ rafNext (stop rt) = rafNext rt.
Proof.
  unfold stop. destruct (requestRef (service rt)); repeat split.
Qed.

Lemma pollFrame_handLandmarker (o : Tick num) (rt : Runtime num) :
  handLandmarker (service (pollFrame o rt)) = handLandmarker (service rt)
  /\ video (service (pollFrame o rt)) = video (service rt).
Proof.
  unfold pollFrame.
  destruct (video (service rt)) as [v|] eqn:Hv; [|split; [reflexivity|auto]].
  destruct (handLandmarker (service rt)) eqn:Hl; [|split; [auto|auto]].
  destruct (frameReady _ _); [|split; [auto|auto]].
  destruct (detectAndProcess_frame o
              (set_service
                 (set_lastVideoTime (currentTime (videoProps o v)) (service rt))
                 rt)) as (Hs & _).
  rewrite Hs. simpl. split; [exact Hl|exact Hv].
Qed.

Lemma loop_handLandmarker (o : Tick num) (rt : Runtime num) :
  handLandmarker (service (loop o rt)) = handLandmarker (service rt).
Proof.
  destruct (pollFrame_handLandmarker o rt) as (Hl & _).
  unfold loop, reschedule; simpl. exact Hl.
Qed.

(** One run of the loop adds one of the four outcomes to the trace. *)
Lemma pollFrame_outcome (o : Tick num) (rt : Runtime num) :
  exists new, trace (pollFrame o rt) = new ++ trace rt /\ LoopOutcome new.
Proof.
  unfold pollFrame.
  destruct (video (service rt)) as [v|];
    [|exists []; split; [reflexivity|constructor]].
  destruct (handLandmarker (service rt));
    [|exists []; split; [reflexivity|constructor]].
  destruct (frameReady _ _);
    [|exists []; split; [reflexivity|constructor]].
  unfold detectAndProcess.
  destruct (detectForVideo o) as [d|].
  - destruct (processDetections d) as [g|] eqn:Hp.
    + exists [OnResult g; ProcessDetections; DetectForVideo].
      split; [reflexivity|]. exact (Published d g Hp).
    + exists [ConsoleWarn; ProcessDetections; DetectForVideo].
      split; [reflexivity|]. exact (ClassifierThrew d Hp).
  - exists [ConsoleWarn; DetectForVideo].
    split; [reflexivity|]. constructor.
Qed.

Lemma service_step_outcome (rt : Runtime num) (e : ServiceEvent num) :
  exists new, trace (service_step rt e) = new ++ trace rt /\ LoopOutcome new.
Proof.
  destruct e as [v o| | |h o]; simpl.
  - exact (pollFrame_outcome o (set_service (set_video v (service rt)) rt)).
  - exists []. destruct (stop_keeps rt) as (_ & Ht & _).
    split; [exact Ht|constructor].
  - exists []. split; [reflexivity|constructor].
  - unfold fire. destruct (existsb (Pos.eqb h) (rafQueue rt)).
    + exact (pollFrame_outcome o
               {| service := service rt;
                  rafQueue := filter (fun k => negb (Pos.eqb k h)) (rafQueue rt);
                  rafNext := rafNext rt;
                  trace := trace rt |}).
    + exists []. split; [reflexivity|constructor].
Qed.

(** X1. A service whose [initialize()] has not resolved does nothing an
    observer sees, however often it is started, stopped and run by the
    browser: no provider call, no callback, no warning. *)
Theorem uninitialised_service_is_silent
    (es : list (ServiceEvent num)) (rt : Runtime num) :
  handLandmarker (service rt) = false ->
  forallb (fun e => negb (is_InitResolved e)) es = true ->
  trace (run_service es rt) = trace rt
  /\ handLandmarker (service (run_service es rt)) = false.
Proof.
  revert rt. induction es as [|e es IH]; intros rt Hl Hes.
  - split; [reflexivity|exact Hl].
  - simpl in Hes. apply andb_true_iff in Hes. destruct Hes as (He & Hes).
    assert (Hstep : trace (service_step rt e) = trace rt
                    /\ handLandmarker (service (service_step rt e)) = false).
    { destruct e as [v o| | |h o]; cbn [service_step is_InitResolved negb] in *.
      - unfold start. rewrite loop_handLandmarker.
        split; [|exact Hl].
        unfold loop, pollFrame. rewrite reschedule_trace.
        cbn [service set_service video set_video handLandmarker].
        rewrite Hl. reflexivity.
      - destruct (stop_keeps rt) as (Hs & Ht & _).
        rewrite Hs. split; [exact Ht|exact Hl].
      - discriminate.
      - unfold fire. destruct (existsb (Pos.eqb h) (rafQueue rt));
          [|split; [reflexivity|exact Hl]].
        rewrite loop_handLandmarker. split; [|exact Hl].
        unfold loop, pollFrame. rewrite reschedule_trace.
        cbn [service]. rewrite Hl.
        destruct (video (service rt)); reflexivity. }
    destruct Hstep as (Ht & Hl').
    destruct (IH (service_step rt e) Hl' Hes) as (Ht' & Hl'').
    simpl. split; [rewrite Ht'; exact Ht|exact Hl''].
Qed.

Lemma outcome_counts (new old : list (Effect num)) :
  LoopOutcome new ->
  List.length (filter is_detect old)
  = List.length (filter is_onResult old) + List.length (filter is_warn old) ->
  List.length (filter is_onResult old)
  <= List.length (filter is_classification old)
  <= List.length (filter is_detect old) ->
  List.length (filter is_detect (new ++ old))
  = List.length (filter is_onResult (new ++ old))
    + List.length (filter is_warn (new ++ old))
  /\ List.length (filter is_onResult (new ++ old))
     <= List.length (filter is_classification (new ++ old))
     <= List.length (filter is_detect (new ++ old)).
Proof.
  intros Hnew Heq Hle. destruct Hnew; simpl; lia.
Qed.

(** X2. Over every run of a new service, each call of the Landmark
    Provider ends in exactly one callback call or one warning, and the
    callback is never called more often than the classifier, nor the
    classifier more often than the provider. *)
Theorem provider_calls_accounted (es : list (ServiceEvent num)) :
  count is_detect (run_service es newRuntime)
  = count is_onResult (run_service es newRuntime)
    + count is_warn (run_service es newRuntime)
  /\ count is_onResult (run_service es newRuntime)
     <= count is_classification (run_service es newRuntime)
     <= count is_detect (run_service es newRuntime).
Proof.
  assert (Hgen : forall (l : list (ServiceEvent num)) (rt : Runtime num),
    (count is_detect rt = count is_onResult rt + count is_warn rt
     /\ count is_onResult rt <= count is_classification rt <= count is_detect rt) ->
    count is_detect (run_service l rt)
    = count is_onResult (run_service l rt) + count is_warn (run_service l rt)
    /\ count is_onResult (run_service l rt)
       <= count is_classification (run_service l rt)
       <= count is_detect (run_service l rt)).
  { induction l as [|e l IH]; intros rt Hrt; [exact Hrt|].
    simpl. apply IH.
    destruct (service_step_outcome rt e) as (new & Ht & Hnew).
    unfold count in *. rewrite Ht.
    destruct Hrt as (Heq & Hle).
    exact (outcome_counts new (trace rt) Hnew Heq Hle). }
  apply Hgen. unfold count; simpl. lia.
Qed.

Lemma processDetections_no_hand (result : HandLandmarkerResult num)
    (g : GestureState num) :
  processDetections result = Some g ->
  isHandDetected g = false -> g = noHandState.
Proof.
  unfold processDetections.
  destruct (landmarks result) as [[|l rest]|].
  - intros [= <-] _. reflexivity.
  - destruct (pinchDist l); [|discriminate].
    destruct (isFist l); [|discriminate].
    destruct (isOpen l); [|discriminate].
    intros [= <-]. simpl. discriminate.
  - intros [= <-] _. reflexivity.
Qed.

Lemma run_service_published (es : list (ServiceEvent num)) (rt : Runtime num)
    (g : GestureState num) :
  (forall g', In (OnResult g') (trace rt) ->
              exists result, processDetections result = Some g') ->
  In (OnResult g) (trace (run_service es rt)) ->
  exists result, processDetections result = Some g.
Proof.
  revert rt. induction es as [|e es IH]; intros rt Hrt; simpl.
  - apply Hrt.
  - apply IH. intros g' Hin.
    destruct (service_step_outcome rt e) as (new & Ht & Hnew).
    rewrite Ht in Hin. apply in_app_or in Hin. destruct Hin as [Hin|Hin].
    + destruct Hnew as [|result g0 Hp|result Hp|]; simpl in Hin.
      * contradiction.
      * destruct Hin as [[= <-]|[Hin|[Hin|[]]]]; try discriminate.
        exists result. exact Hp.
      * destruct Hin as [Hin|[Hin|[Hin|[]]]]; discriminate.
      * destruct Hin as [Hin|[Hin|[]]]; discriminate.
    + apply Hrt. exact Hin.
Qed.

(** X8. Every state a service ever hands to its callback is an answer of
    the classifier; in particular one that reports no hand is exactly
    [{false, None, (0.5, 0.5)}]: the service never publishes a gesture
    without a hand. *)
Theorem published_states_come_from_classifier
    (es : list (ServiceEvent num)) (g : GestureState num) :
  In (OnResult g) (trace (run_service es newRuntime)) ->
  (exists result, processDetections result = Some g)
  /\ (isHandDetected g = false -> g = noHandState).
Proof.
  intros Hin.
  assert (Hres : exists result, processDetections result = Some g).
  { apply (run_service_published es newRuntime g); [|exact Hin].
    intros g' []. }
  split; [exact Hres|].
  destruct Hres as (result & Hp). exact (processDetections_no_hand result g Hp).
Qed.

(** X3. A frame on which the detection failed is not tried again: the
    loop records its time before it calls the provider, so the next run
    that reads the same playback time does nothing. *)
Theorem failed_frame_not_retried
    (o o' : Tick num) (rt : Runtime num) (v : VideoRef) :
  video (service rt) = Some v ->
  handLandmarker (service rt) = true ->
  frameReady (videoProps o v) (lastVideoTime (service rt)) = true ->
  detectForVideo o = None ->
  (currentTime (videoProps o' v) === currentTime (videoProps o v))%js = true ->
  trace (loop o rt) = ConsoleWarn :: DetectForVideo :: trace rt
  /\ trace (loop o' (loop o rt)) = trace (loop o rt).
Proof.
  intros Hv Hl Hf Hthrow Hsame.
  split.
  - unfold loop. rewrite reschedule_trace, (pollFrame_accepted o rt v Hv Hl Hf).
    unfold detectAndProcess. rewrite Hthrow. reflexivity.
  - assert (Hv1 : video (service (loop o rt)) = Some v).
    { destruct (pollFrame_handLandmarker o rt) as (_ & Hv').
      unfold loop, reschedule; simpl. rewrite Hv'. exact Hv. }
    unfold loop at 1. rewrite reschedule_trace.
    rewrite (pollFrame_refused o' (loop o rt) v Hv1); [reflexivity|].
    apply frameReady_refused. left.
    rewrite (loop_records_time o rt v Hv Hl Hf). exact Hsame.
Qed.

(** X7. [stop()] followed by [start()] on a service that runs one loop
    leaves exactly one animation-frame request pending, the one recorded
    in [requestRef]: the restart does not pile up loops. *)
Theorem restart_leaves_one_loop
    (v : VideoRef) (o : Tick num) (rt : Runtime num) :
  singleLoop rt ->
  rafQueue (start v o (stop rt)) = [rafNext rt]
  /\ requestRef (service (start v o (stop rt))) = Some (rafNext rt).
Proof.
  intros Hs.
  pose proof (stop_empties_queue rt Hs) as Hq.
  destruct (stop_keeps rt) as (_ & _ & Hn).
  destruct (pollFrame_queue o
              (set_service (set_video v (service (stop rt))) (stop rt)))
    as (Hq' & Hn' & _).
  destruct (reschedule_queue
              (pollFrame o
                 (set_service (set_video v (service (stop rt))) (stop rt))))
    as (Hq'' & Hr'').
  unfold start, loop. rewrite Hq'', Hr'', Hq', Hn'. simpl.
  rewrite Hq, Hn. split; reflexivity.
Qed.

End ServiceRunFacts.
Lemma uninitialised_service_is_silent_sample :
  trace (run_service [CallStart 0 (noHandFrame 0);
                      AnimationFrame 1%positive (noHandFrame 1);
                      CallStop;
                      CallStart 0 (noHandFrame 2)]
           (@newRuntime PrimFloat.float _)) = [].
Proof.
  apply (@uninitialised_service_is_silent PrimFloat.float _
           [CallStart 0 (noHandFrame 0);
            AnimationFrame 1%positive (noHandFrame 1);
            CallStop;
            CallStart 0 (noHandFrame 2)] newRuntime);
    reflexivity.
Defined.

Lemma published_states_come_from_classifier_sample :
  exists result : HandLandmarkerResult PrimFloat.float,
    processDetections result = Some noHandState.
Proof.
  apply (@published_states_come_from_classifier PrimFloat.float _
           [InitResolved; CallStart 0 (noHandFrame 0)] noHandState).
  vm_compute. left. reflexivity.
Defined.

Lemma failed_frame_not_retried_sample :
  trace (loop (noHandFrame 1)
           (loop (frameAt (ofZ 1) None) (@startedOnce PrimFloat.float _)))
  = trace (loop (frameAt (ofZ 1) None) (@startedOnce PrimFloat.float _)).
Proof.
  apply (@failed_frame_not_retried PrimFloat.float _
           (frameAt (ofZ 1) None) (noHandFrame 1) startedOnce 0).
  - exact startedOnce_video.
  - vm_compute. reflexivity.
  - vm_compute. reflexivity.
  - reflexivity.
  - vm_compute. reflexivity.
Defined.

Lemma restart_leaves_one_loop_sample :
  rafQueue (start 0 (noHandFrame 5) (stop (@startedOnce PrimFloat.float _)))
  = [rafNext (@startedOnce PrimFloat.float _)]
  /\ rafNext (@startedOnce PrimFloat.float _) = 2%positive.
Proof.
  split; [|reflexivity].
  apply (@restart_leaves_one_loop PrimFloat.float _ 0 (noHandFrame 5) startedOnce).
  apply singleLoop_start. reflexivity.
Defined.

(** ** Poses of other sizes, and the geometry of the rules *)

Section PoseSizes.
Context {num : Type} `{JsNumber num}.

Lemma at_index_missing (l : list (Point num)) (i : nat) :
  List.length l <= i -> at_index l i = None.
Proof. intro Hi. apply nth_error_None. exact Hi. Qed.

Lemma dist_missing_r (p : option (Point num)) : dist p None = None.
Proof. destruct p; reflexivity. Qed.

(** X4. The classifier reads landmarks 0, 4, 8, 12, 16 and 20.  On a hand
    of at least 21 landmarks it never throws and reports a detected hand;
    on a hand of fewer than 9 landmarks (no index tip) it always throws,
    and the loop then logs a warning instead of calling the callback. *)
Theorem processDetections_needs_landmarks
    (l : list (Point num)) (rest : list (list (Point num)))
    (o : Tick num) (rt : Runtime num) :
  (21 <= List.length l ->
   exists g, processDetections {| landmarks := Some (l :: rest) |} = Some g
             /\ isHandDetected g = true
             /\ handPosition g = {| x := (ofZ 1 - handX l)%js; y := handY l |})
  /\ (List.length l < 9 ->
      processDetections {| landmarks := Some (l :: rest) |} = None
      /\ (detectForVideo o = Some {| landmarks := Some (l :: rest) |} ->
          trace (detectAndProcess o rt)
          = ConsoleWarn :: ProcessDetections :: DetectForVideo :: trace rt)).
Proof.
  split.
  - intros Hlen. unfold processDetections, pinchDist, isFist, isOpen.
    cbn [landmarks].
    rewrite !at_index_landmark by lia. rewrite !dist_distance.
    cbn [lt_const gt_const option_map and_then].
    destruct (distance (landmark l 8) (landmark l 0) <? decimal 2 10)%js;
    destruct (distance (landmark l 12) (landmark l 0) <? decimal 2 10)%js;
    destruct (distance (landmark l 16) (landmark l 0) <? decimal 2 10)%js;
    destruct (decimal 3 10 <? distance (landmark l 8) (landmark l 0))%js;
    destruct (decimal 3 10 <? distance (landmark l 12) (landmark l 0))%js;
    destruct (decimal 3 10 <? distance (landmark l 16) (landmark l 0))%js;
    cbn [and_then option_map];
    eexists; (split; [reflexivity|split; reflexivity]).
  - intros Hlen.
    assert (Hp : processDetections {| landmarks := Some (l :: rest) |} = None).
    { unfold processDetections, pinchDist. cbn [landmarks].
      rewrite (at_index_missing l 8) by lia. rewrite dist_missing_r.
      reflexivity. }
    split; [exact Hp|].
    intros Hd. unfold detectAndProcess. rewrite Hd, Hp. reflexivity.
Qed.

End PoseSizes.

Lemma processDetections_needs_landmarks_sample :
  processDetections
    {| landmarks := Some [[pt (decimal 5 10) (decimal 5 10)]] |}
  = (None : option (GestureState PrimFloat.float)).
Proof.
  apply (proj2 (@processDetections_needs_landmarks PrimFloat.float _
                  [pt (decimal 5 10) (decimal 5 10)] []
                  (noHandFrame 0) newRuntime)).
  simpl. lia.
Defined.

(** A hand of 9 to 20 landmarks need not throw: the tests of the fist and
    of the open palm stop at the first fingertip that fails them. *)
Example nine_landmarks_may_pass :
  option_map (@gesture _)
    (processDetections
       {| landmarks := Some [firstn 9 (@pinchPose PrimFloat.float _)] |})
  = Some Pinch.
Proof. vm_compute. reflexivity. Qed.

(** ** The rules over the reals *)

Lemma Rltb_true (a b : R) : Rltb a b = true <-> (a < b)%R.
Proof.
  unfold Rltb. destruct (Rlt_dec a b); split; intros; try assumption;
    try reflexivity; try discriminate; contradiction.
Qed.

(** X6. Over the reals no hand is both a fist and an open palm: when the
    fist test holds the open-palm test fails, and the other way round. *)
Theorem fist_excludes_open_palm (l : list (Point R)) :
  (isFist l = Some true -> isOpen l = Some false)
  /\ (isOpen l = Some true -> isFist l = Some false).
Proof.
  unfold isFist, isOpen.
  destruct (dist (at_index l 8) (at_index l 0)) as [d|]; simpl;
    [|split; discriminate].
  unfold decimal; simpl.
  destruct (Rltb d (2 / 10)) eqn:Hf, (Rltb (3 / 10) d) eqn:Ho; simpl.
  - apply Rltb_true in Hf. apply Rltb_true in Ho. lra.
  - split; [reflexivity|].
    destruct (dist (at_index l 12) (at_index l 0)); simpl; [|discriminate].
    discriminate.
  - split; [discriminate|reflexivity].
  - split; discriminate.
Qed.

(** ** More on the mode machine *)

Section ModeMachineMore.
Context {num : Type} `{JsNumber num}.

Lemma transitionEffect_zoom_selected (random : num) (s s' : AppState num) :
  (mode s = ZOOM -> selectedPhotoId s <> None /\ photos s <> []) ->
  transitionEffect random s = Some s' ->
  mode s' = ZOOM -> selectedPhotoId s' <> None /\ photos s' <> [].
Proof.
  intros Hinv. unfold transitionEffect.
  destruct (negb (isHandDetected (gestureState s))).
  { destruct (negb (AppMode_eqb (mode s) TREE)); intros [= <-]; simpl;
      [discriminate|exact Hinv]. }
  destruct (Gesture_eqb (gesture (gestureState s)) Closed_Fist
            && negb (AppMode_eqb (mode s) TREE)).
  { intros [= <-]; simpl. discriminate. }
  destruct (Gesture_eqb (gesture (gestureState s)) Open_Palm).
  { destruct (AppMode_eqb (mode s) TREE); intros [= <-]; simpl;
      [discriminate|exact Hinv]. }
  destruct (Gesture_eqb (gesture (gestureState s)) Pinch);
    [|intros [= <-]; exact Hinv].
  destruct (negb (AppMode_eqb (mode s) ZOOM)) eqn:Hz; simpl;
    [|intros [= <-]; exact Hinv].
  destruct (Nat.ltb_spec 0 (List.length (photos s))) as [Hlen|Hlen];
    [|intros [= <-]; exact Hinv].
  assert (Hne : photos s <> []).
  { intro E. rewrite E in Hlen. simpl in Hlen. lia. }
  destruct (truthy (selectedPhotoId s)) eqn:Ht; simpl.
  - intros [= <-] _; simpl. split; [|exact Hne].
    intro E. rewrite E in Ht. discriminate.
  - destruct (photoAt (photos s) (randomIdx random (photos s)));
      [|discriminate].
    intros [= <-] _; simpl. split; [discriminate|exact Hne].
Qed.

Lemma handleFileUpload_zoom_selected
    (newPhotos : option (list (PhotoData num))) (s : AppState num) :
  (mode s = ZOOM -> selectedPhotoId s <> None /\ photos s <> []) ->
  mode (handleFileUpload newPhotos s) = ZOOM ->
  selectedPhotoId (handleFileUpload newPhotos s) <> None
  /\ photos (handleFileUpload newPhotos s) <> [].
Proof.
  destruct newPhotos as [l|]; simpl; [|auto].
  intros Hinv Hm. destruct (Hinv Hm) as (Hsel & Hne).
  split; [exact Hsel|].
  intro E. apply app_eq_nil in E. destruct E as (E & _). contradiction.
Qed.

Lemma reachable_zoom_selected (s : AppState num) :
  reachable s -> mode s = ZOOM ->
  selectedPhotoId s <> None /\ photos s <> [].
Proof.
  intros Hr. induction Hr as [|s e s' _ IH Hstep].
  - discriminate.
  - destruct e as [random g|random newPhotos|random]; simpl in Hstep.
    + apply (transitionEffect_zoom_selected random (setGestureState g s) s');
        [exact IH|exact Hstep].
    + apply (transitionEffect_zoom_selected random
               (handleFileUpload newPhotos s) s');
        [|exact Hstep].
      apply handleFileUpload_zoom_selected. exact IH.
    + apply (transitionEffect_zoom_selected random s s'); assumption.
Qed.

Lemma reachable_selectionValid (s : AppState num) :
  reachable s -> selectionValid s.
Proof.
  intros Hr. induction Hr as [|s e s' _ IH Hstep].
  - exact I.
  - exact (app_step_valid s s' e IH Hstep).
Qed.

(** X9. In every reachable state, Zoom comes with a selected photo and a
    collection that is not empty: the app never zooms on nothing. *)
Theorem zoom_has_selection (s : AppState num) :
  reachable s -> mode s = ZOOM ->
  selectedPhotoId s <> None /\ photos s <> [].
Proof. exact (reachable_zoom_selected s). Qed.

(** X10. What the transition effect never does: it never touches the
    photo collection or the stored gesture state, it never goes from Zoom
    to Scatter, it enters Scatter from Tree only, and when it leaves the
    mode as it is it changes nothing at all. *)
Theorem transitionEffect_frame (random : num) (s s' : AppState num) :
  transitionEffect random s = Some s' ->
  photos s' = photos s
  /\ gestureState s' = gestureState s
  /\ (mode s = ZOOM -> mode s' <> SCATTER)
  /\ (mode s' = SCATTER -> mode s <> SCATTER -> mode s = TREE)
  /\ (mode s' = mode s -> s' = s).
Proof.
  destruct s as [m ps sel g]. unfold transitionEffect; simpl.
  destruct (isHandDetected g); simpl.
  2:{ destruct m; simpl; intros [= <-]; simpl;
        repeat split; try congruence; try discriminate. }
  destruct (gesture g); simpl.
  - destruct m; simpl; intros [= <-]; simpl;
      repeat split; try congruence; try discriminate.
  - destruct m; simpl; intros [= <-]; simpl;
      repeat split; try congruence; try discriminate.
  - destruct m; simpl;
      destruct (0 <? List.length ps)%nat; simpl;
      try (intros [= <-]; simpl; repeat split; try congruence; discriminate);
      (destruct (truthy sel); simpl;
       [|destruct (photoAt ps (randomIdx random ps)); [|discriminate]];
       intros [= <-]; simpl; repeat split; try congruence; discriminate).
  - destruct m; intros [= <-]; simpl;
      repeat split; try congruence; try discriminate.
Qed.

End ModeMachineMore.

Lemma zoom_has_selection_sample :
  selectedPhotoId
    (setGestureState (gestureOf true Pinch)
       (sampleState (num:=PrimFloat.float) ZOOM (Some "b"%string))) <> None.
Proof.
  apply (@zoom_has_selection PrimFloat.float _
           (setGestureState (gestureOf true Pinch)
              (sampleState ZOOM (Some "b"%string)))).
  - apply reachable_step
      with (s := sampleState TREE None)
           (e := NewGesture (decimal 5 10) (gestureOf true Pinch)).
    + apply reachable_step
        with (s := initialState)
             (e := Upload (decimal 5 10)
                     (Some [samplePhoto "a"; samplePhoto "b"; samplePhoto "c"]%string)).
      * apply reachable_initial.
      * vm_compute. reflexivity.
    + vm_compute. reflexivity.
  - reflexivity.
Defined.

Lemma transitionEffect_frame_sample :
  photos (setMode SCATTER
            (setGestureState (gestureOf (num:=PrimFloat.float) true Open_Palm)
               (sampleState TREE None)))
  = photos (setGestureState (gestureOf true Open_Palm) (sampleState TREE None)).
Proof.
  apply (@transitionEffect_frame PrimFloat.float _ (decimal 5 10)
           (setGestureState (gestureOf true Open_Palm) (sampleState TREE None))
           (setMode SCATTER
              (setGestureState (gestureOf true Open_Palm)
                 (sampleState TREE None)))).
  vm_compute. reflexivity.
Defined.

Lemma transitionEffect_settles_sample :
  transitionEffect (num:=PrimFloat.float) (decimal 9 10)
    (setSelectedPhotoId (Some "b"%string)
       (setMode ZOOM
          (setGestureState (gestureOf true Pinch) (sampleState TREE None))))
  = Some (setSelectedPhotoId (Some "b"%string)
            (setMode ZOOM
               (setGestureState (gestureOf true Pinch) (sampleState TREE None)))).
Proof.
  apply (@transitionEffect_settles PrimFloat.float _
           (decimal 5 10) (decimal 9 10)
           (setGestureState (gestureOf true Pinch) (sampleState TREE None))).
  vm_compute. reflexivity.
Defined.

(** ** The effect over the reals: it never throws *)

(** X13. With [Math.random()] in [0,1) the transition effect never
    throws: the random index always names a photo of the collection. *)
Theorem transitionEffect_never_throws (random : R) (s : AppState R) :
  (0 <= random < 1)%R -> exists s', transitionEffect random s = Some s'.
Proof.
  intros Hr. unfold transitionEffect.
  destruct (negb (isHandDetected (gestureState s))).
  { destruct (negb (AppMode_eqb (mode s) TREE)); eexists; reflexivity. }
  destruct (Gesture_eqb (gesture (gestureState s)) Closed_Fist
            && negb (AppMode_eqb (mode s) TREE)); [eexists; reflexivity|].
  destruct (Gesture_eqb (gesture (gestureState s)) Open_Palm).
  { destruct (AppMode_eqb (mode s) TREE); eexists; reflexivity. }
  destruct (Gesture_eqb (gesture (gestureState s)) Pinch);
    [|eexists; reflexivity].
  destruct (negb (AppMode_eqb (mode s) ZOOM)); cbn [andb];
    [|eexists; reflexivity].
  destruct (Nat.ltb_spec 0 (List.length (photos s))) as [Hlen|Hlen];
    [|eexists; reflexivity].
  destruct (negb (truthy (selectedPhotoId s))); [|eexists; reflexivity].
  assert (Hne : photos s <> []).
  { intro E. rewrite E in Hlen. simpl in Hlen. lia. }
  destruct (random_photo_drawn random (photos s) Hr Hne) as (p & Hp & _).
  rewrite Hp. eexists. reflexivity.
Qed.

Lemma transitionEffect_never_throws_sample :
  exists s' : AppState R,
    transitionEffect (decimal 99 100)
      (setGestureState (gestureOf true Pinch) (sampleState TREE None))
    = Some s'.
Proof.
  apply (transitionEffect_never_throws (decimal 99 100)
           (setGestureState (gestureOf true Pinch) (sampleState TREE None))).
  unfold decimal; simpl. lra.
Defined.

(** X12. A pinch made while there is no photo changes nothing; but the
    effect also runs when photos arrive, so an upload made while that
    pinch is still the current gesture enters Zoom at once, on one of the
    uploaded photos. *)
Theorem upload_during_pinch_enters_zoom
    (random : R) (l : list (PhotoData R)) (s : AppState R) :
  isHandDetected (gestureState s) = true ->
  gesture (gestureState s) = Pinch ->
  mode s <> ZOOM -> selectedPhotoId s = None -> photos s = [] ->
  l <> [] -> (0 <= random < 1)%R ->
  transitionEffect random s = Some s
  /\ exists s' p,
       photoUpload random (Some l) s = Some s'
       /\ mode s' = ZOOM /\ photos s' = l
       /\ In p l /\ selectedPhotoId s' = Some (id p).
Proof.
  intros Hd Hg Hm Hsel Hps Hl Hr.
  assert (Hz : AppMode_eqb (mode s) ZOOM = false).
  { destruct (AppMode_eqb (mode s) ZOOM) eqn:E; [|reflexivity].
    apply AppMode_eqb_eq in E. contradiction. }
  split.
  - unfold transitionEffect. rewrite Hd, Hg, Hz, Hps. reflexivity.
  - unfold photoUpload, transitionEffect.
    cbn [handleFileUpload gestureState setPhotos mode photos selectedPhotoId].
    rewrite Hd, Hg, Hz, Hsel, Hps. cbn [negb Gesture_eqb andb truthy app].
    destruct (Nat.ltb_spec 0 (List.length l)) as [Hlen|Hlen].
    2:{ destruct l; [congruence|simpl in Hlen; lia]. }
    destruct (random_photo_drawn random l Hr Hl) as (p & Hp & _).
    rewrite Hp. eexists. exists p.
    split; [reflexivity|]. simpl.
    repeat split. exact (photoAt_In l _ p Hp).
Qed.

Lemma upload_during_pinch_enters_zoom_sample :
  exists (s' : AppState R) (p : PhotoData R),
    photoUpload (decimal 5 10) (Some [samplePhoto "a"%string])
      (setGestureState (gestureOf true Pinch) initialState) = Some s'
    /\ mode s' = ZOOM /\ selectedPhotoId s' = Some (id p).
Proof.
  destruct (upload_during_pinch_enters_zoom (decimal 5 10)
              [samplePhoto "a"%string]
              (setGestureState (gestureOf true Pinch) initialState))
    as (_ & s' & p & Hs & Hm & _ & _ & Hsel).
  - reflexivity.
  - reflexivity.
  - discriminate.
  - reflexivity.
  - reflexivity.
  - discriminate.
  - unfold decimal; simpl. lra.
  - exists s', p. split; [exact Hs|]. split; [exact Hm|exact Hsel].
Defined.

(** ** Where photos and particles are placed, over the reals *)

Lemma within_reach (r c : R) :
  (0 <= r)%R -> (-1 <= c <= 1)%R -> (- r <= r * c <= r)%R.
Proof. intros Hr Hc. split; nra. Qed.

(** X14. Every photo record built on upload lies within the outline of the
    tree: its height [h] is in [-7.5, 7.5), and its two horizontal
    coordinates are within [(1 - (h + 10) / 20) * 6] of the axis, a reach
    between 0.75 at the top and 5.25 at the bottom.  Its scatter position
    is in the cube [-10, 10)^3, and it carries the identifier, the URL
    and the rotation the browser gave. *)
Theorem newPhotoData_within_tree (d : FileDraws R) :
  unitDraw (draw_h d) -> unitDraws (draw_scatter d) ->
  let pos := vec3_of (position (newPhotoData d)) in
  let reach := ((1 - (vy pos + 10) / 20) * 6)%R in
  (-75 / 10 <= vy pos < 75 / 10)%R
  /\ (75 / 100 <= reach <= 525 / 100)%R
  /\ (- reach <= vx pos <= reach)%R
  /\ (- reach <= vz pos <= reach)%R
  /\ (-10 <= vx (vec3_of (scatterPosition (newPhotoData d))) < 10)%R
  /\ (-10 <= vy (vec3_of (scatterPosition (newPhotoData d))) < 10)%R
  /\ (-10 <= vz (vec3_of (scatterPosition (newPhotoData d))) < 10)%R
  /\ id (newPhotoData d) = uuid d
  /\ url (newPhotoData d) = objectURL d
  /\ rotation (newPhotoData d) = draw_rotation d.
Proof.
  destruct d as [u o h t [[s1 s2] s3] rot]. unfold unitDraw, unitDraws.
  cbn [draw_h draw_scatter]. intros Hh (H1 & H2 & H3).
  unfold unitDraw in *.
  cbv zeta. unfold newPhotoData, decimal; simpl.
  assert (Hreach : (75 / 100 <= (1 - ((h - 5 / 10) * 15 + 10) / 20) * 6
                    <= 525 / 100)%R) by lra.
  split; [lra|]. split; [exact Hreach|].
  split; [apply within_reach; [lra|apply COS_bound]|].
  split; [apply within_reach; [lra|apply SIN_bound]|].
  repeat split; lra.
Qed.

Lemma newPhotoData_within_tree_sample :
  (-75 / 10
   <= vy (vec3_of (position
            (newPhotoData
               {| uuid := "a"; objectURL := "blob"; draw_h := 0;
                  draw_theta := 0; draw_scatter := (0, 0, 0);
                  draw_rotation := (0, 0, 0) |})))
   < 75 / 10)%R.
Proof.
  refine (proj1 (newPhotoData_within_tree
                   {| uuid := "a"; objectURL := "blob"; draw_h := 0%R;
                      draw_theta := 0%R; draw_scatter := (0, 0, 0)%R;
                      draw_rotation := (0, 0, 0)%R |} _ _)).
  - unfold unitDraw; simpl. lra.
  - unfold unitDraws, unitDraw; simpl. lra.
Defined.

Lemma floor_of_three (t : R) :
  (0 <= t < 1)%R ->
  Int_part (t * 3) = 0%Z \/ Int_part (t * 3) = 1%Z \/ Int_part (t * 3) = 2%Z.
Proof.
  intros Ht. destruct (base_Int_part (t * 3)) as [Hlo Hhi].
  assert (H0 : (-1 < Int_part (t * 3))%Z) by (apply lt_IZR; lra).
  assert (H3 : (Int_part (t * 3) < 3)%Z) by (apply lt_IZR; lra).
  lia.
Qed.

(** X20. Every generated particle starts within the outline of the tree:
    its height [h] is in [-10, 10), and its two horizontal coordinates
    are within [(1 - (h + 20/2) / 20) * 8] of the axis, a reach between 0
    at the top and 8 at the bottom.  It starts at its tree position; its
    scatter position is in [-15, 15)^3, its type is 0, 1 or 2 and its
    speed is between 0.05 and 0.1. *)
Theorem newParticle_within_tree (d : ParticleDraws R) :
  unitDraw (pdraw_h d) -> unitDraw (pdraw_r d) ->
  unitDraws (pdraw_scatter d) ->
  unitDraw (pdraw_type d) -> unitDraw (pdraw_speed d) ->
  let pos := posTree (newParticle d) in
  let reach := ((1 - (vy pos + 20 / 2) / 20) * 8)%R in
  (-10 <= vy pos < 10)%R
  /\ (0 <= reach <= 8)%R
  /\ (- reach <= vx pos <= reach)%R
  /\ (- reach <= vz pos <= reach)%R
  /\ currentPos (newParticle d) = posTree (newParticle d)
  /\ (-15 <= vx (posScatter (newParticle d)) < 15)%R
  /\ (-15 <= vy (posScatter (newParticle d)) < 15)%R
  /\ (-15 <= vz (posScatter (newParticle d)) < 15)%R
  /\ (type (newParticle d) = Some 0%Z \/ type (newParticle d) = Some 1%Z
      \/ type (newParticle d) = Some 2%Z)
  /\ (5 / 100 <= speed (newParticle d) <= 10 / 100)%R.
Proof.
  destruct d as [h r t [[s1 s2] s3] ty sp]. unfold unitDraw, unitDraws.
  cbn [pdraw_h pdraw_r pdraw_scatter pdraw_type pdraw_speed].
  intros Hh Hr (H1 & H2 & H3) Hty Hsp.
  unfold unitDraw in *.
  cbv zeta. unfold newParticle, decimal, TREE_HEIGHT, TREE_RADIUS_BASE; simpl.
  set (reach := ((1 - ((h - 5 / 10) * 20 + 20 / 2) / 20) * 8)%R).
  assert (Hreach : (0 <= reach <= 8)%R) by (unfold reach; lra).
  assert (Hrad : (0 <= reach * r <= reach)%R) by nra.
  pose proof (COS_bound (t * PI * 2)) as Hc.
  pose proof (SIN_bound (t * PI * 2)) as Hs.
  pose proof (within_reach (reach * r) (cos (t * PI * 2)) (proj1 Hrad) Hc) as Hx.
  pose proof (within_reach (reach * r) (sin (t * PI * 2)) (proj1 Hrad) Hs) as Hz.
  split; [lra|]. split; [exact Hreach|].
  split; [lra|]. split; [lra|].
  split; [reflexivity|].
  repeat split; try lra.
  destruct (floor_of_three ty Hty) as [E|[E|E]]; rewrite E; auto.
Qed.

Lemma newParticle_within_tree_sample :
  (-10
   <= vy (posTree
            (newParticle
               {| pdraw_h := 0; pdraw_r := 0; pdraw_theta := 0;
                  pdraw_scatter := (0, 0, 0); pdraw_type := 0;
                  pdraw_speed := 0 |}))
   < 10)%R.
Proof.
  refine (proj1 (newParticle_within_tree
                   {| pdraw_h := 0%R; pdraw_r := 0%R; pdraw_theta := 0%R;
                      pdraw_scatter := (0, 0, 0)%R; pdraw_type := 0%R;
                      pdraw_speed := 0%R |} _ _ _ _ _));
    unfold unitDraws, unitDraw; simpl; lra.
Defined.

(** ** Particles: which mesh instance each particle is written to *)

Section MeshInstances.
Context {num : Type} `{JsNumber num} `{JsTrig num}.

Lemma meshOf_cases (p : Particle num) :
  meshOf p = (if type_is p 0 then 0 else if type_is p 1 then 1 else 2).
Proof.
  unfold meshOf, setMatrixAt_call.
  destruct (type_is p 0); [reflexivity|].
  destruct (type_is p 1); reflexivity.
Qed.

Lemma meshLoad_cons (p : Particle num) (ps : list (Particle num)) (k : nat) :
  meshLoad (p :: ps) k
  = (if Nat.eqb (meshOf p) k then 1 else 0) + meshLoad ps k.
Proof.
  unfold meshLoad; simpl. destruct (Nat.eqb (meshOf p) k); reflexivity.
Qed.

Lemma meshLoad_total (ps : list (Particle num)) :
  meshLoad ps 0 + meshLoad ps 1 + meshLoad ps 2 = List.length ps.
Proof.
  induction ps as [|p ps IH]; [reflexivity|].
  rewrite !meshLoad_cons, meshOf_cases. simpl List.length.
  destruct (type_is p 0); [simpl; lia|].
  destruct (type_is p 1); simpl; lia.
Qed.

(** The calls made for mesh [k] use the indices from its counter on, one
    after the other. *)
Lemma meshWritesFrom_spec (ps : list (Particle num)) (c : Counters)
    (k i : nat) :
  In (k, i) (meshWritesFrom ps c)
  <-> k < 3 /\ counterOf c k <= i < counterOf c k + meshLoad ps k.
Proof.
  revert c. induction ps as [|p ps IH]; intro c.
  - simpl. unfold meshLoad; simpl. split; [intros []|lia].
  - rewrite meshLoad_cons, meshOf_cases.
    cbn [meshWritesFrom]. unfold setMatrixAt_call.
    destruct (type_is p 0).
    + cbn [In]. rewrite IH.
      destruct k as [|[|[|k]]]; cbn [counterOf idx0 idx1 idx2 Nat.eqb];
        split;
        try (intros [[= <-]|Hin]; lia);
        try (intros [E|Hin]; [inversion E; subst; lia|lia]);
        intros (Hk & Hi);
        try lia;
        try (destruct (Nat.eq_dec i (idx0 c)) as [->|Hne];
             [left; reflexivity|right; lia]);
        right; lia.
    + destruct (type_is p 1).
      * cbn [In]. rewrite IH.
        destruct k as [|[|[|k]]]; cbn [counterOf idx0 idx1 idx2 Nat.eqb];
          split;
          try (intros [E|Hin]; [inversion E; subst; lia|lia]);
          intros (Hk & Hi);
          try lia;
          try (destruct (Nat.eq_dec i (idx1 c)) as [->|Hne];
               [left; reflexivity|right; lia]);
          right; lia.
      * cbn [In]. rewrite IH.
        destruct k as [|[|[|k]]]; cbn [counterOf idx0 idx1 idx2 Nat.eqb];
          split;
          try (intros [E|Hin]; [inversion E; subst; lia|lia]);
          intros (Hk & Hi);
          try lia;
          try (destruct (Nat.eq_dec i (idx2 c)) as [->|Hne];
               [left; reflexivity|right; lia]);
          right; lia.
Qed.

Lemma meshWritesFrom_length (ps : list (Particle num)) (c : Counters) :
  List.length (meshWritesFrom ps c) = List.length ps.
Proof.
  revert c. induction ps as [|p ps IH]; intro c; [reflexivity|].
  cbn [meshWritesFrom].
  destruct (setMatrixAt_call p c) as (w & c'). simpl. rewrite IH. reflexivity.
Qed.

(** X19. In a frame each of the [COUNT] particles is written to one mesh,
    at the indices 0, 1, 2, ... of that mesh in turn.  Each mesh is
    created with [COUNT / 3] instances, while the types are drawn at
    random: every write stays below that capacity only when each of the
    three types has exactly [COUNT / 3] particles; otherwise some
    particle is written at an index the mesh does not have. *)
Theorem instances_fit_only_when_balanced (ps : list (Particle num)) :
  List.length ps = COUNT ->
  List.length (meshWrites ps) = COUNT
  /\ (forall k i, In (k, i) (meshWrites ps) <-> k < 3 /\ i < meshLoad ps k)
  /\ ((forall k i, In (k, i) (meshWrites ps) -> i < meshCapacity)
      <-> (meshLoad ps 0 = meshCapacity /\ meshLoad ps 1 = meshCapacity
           /\ meshLoad ps 2 = meshCapacity)).
Proof.
  intros Hlen.
  assert (Hspec : forall k i,
             In (k, i) (meshWrites ps) <-> k < 3 /\ i < meshLoad ps k).
  { intros k i. unfold meshWrites. rewrite meshWritesFrom_spec.
    destruct k as [|[|k]]; simpl; lia. }
  pose proof (meshLoad_total ps) as Htot. rewrite Hlen in Htot.
  assert (Hcap : meshCapacity = 400) by reflexivity.
  assert (Hcount : COUNT = 1200) by reflexivity.
  split; [unfold meshWrites; rewrite meshWritesFrom_length; exact Hlen|].
  split; [exact Hspec|].
  split.
  - intros Hfit.
    assert (Hle : forall k, k < 3 -> meshLoad ps k <= meshCapacity).
    { intros k Hk. destruct (meshLoad ps k) as [|n] eqn:Hn; [lia|].
      assert (Hin : In (k, n) (meshWrites ps)).
      { apply Hspec. split; [exact Hk|lia]. }
      specialize (Hfit k n Hin). lia. }
    pose proof (Hle 0 ltac:(lia)). pose proof (Hle 1 ltac:(lia)).
    pose proof (Hle 2 ltac:(lia)). lia.
  - intros (Ha & Hb & Hc) k i Hin. apply Hspec in Hin.
    destruct Hin as (Hk & Hi).
    destruct k as [|[|[|k]]]; lia.
Qed.

End MeshInstances.

Lemma generateParticles_length (draws : nat -> ParticleDraws R) :
  List.length (generateParticles draws) = COUNT.
Proof. unfold generateParticles. rewrite length_map, length_seq. reflexivity. Qed.

Lemma instances_fit_only_when_balanced_sample :
  List.length
    (meshWrites
       (generateParticles
          (fun _ => {| pdraw_h := 0%R; pdraw_r := 0%R; pdraw_theta := 0%R;
                       pdraw_scatter := (0, 0, 0)%R; pdraw_type := 0%R;
                       pdraw_speed := 0%R |})))
  = COUNT.
Proof.
  apply (@instances_fit_only_when_balanced R
           (generateParticles
              (fun _ => {| pdraw_h := 0%R; pdraw_r := 0%R; pdraw_theta := 0%R;
                           pdraw_scatter := (0, 0, 0)%R; pdraw_type := 0%R;
                           pdraw_speed := 0%R |}))).
  apply generateParticles_length.
Defined.

(** ** The page: loading, the camera button and the service *)

Section WebAppFacts.
Context {num : Type} `{JsNumber num}.

Lemma loop_video (o : Tick num) (rt : Runtime num) :
  video (service (loop o rt)) = video (service rt).
Proof.
  destruct (pollFrame_handLandmarker o rt) as (_ & Hv).
  unfold loop, reschedule; simpl. exact Hv.
Qed.

Lemma fire_keeps (h : positive) (o : Tick num) (rt : Runtime num) :
  handLandmarker (service (fire h o rt)) = handLandmarker (service rt)
  /\ video (service (fire h o rt)) = video (service rt).
Proof.
  unfold fire. destruct (existsb (Pos.eqb h) (rafQueue rt)).
  - rewrite loop_handLandmarker, loop_video. split; reflexivity.
  - split; reflexivity.
Qed.

Lemma start_keeps (v : VideoRef) (o : Tick num) (rt : Runtime num) :
  handLandmarker (service (start v o rt)) = handLandmarker (service rt)
  /\ video (service (start v o rt)) = Some v.
Proof.
  unfold start. rewrite loop_handLandmarker, loop_video. split; reflexivity.
Qed.

(** What holds of the page in every state. *)
Lemma web_step_invariant (a a' : WebApp num) (e : WebEvent num) :
  web_step a e = Some a' ->
  ((loading a = true ->
    pendingGetUserMedia a = 0 /\ webcamEnabled a = false
    /\ video (service (gestureService a)) = None
    /\ trace (gestureService a) = [] /\ rafQueue (gestureService a) = [])
   /\ (loading a = false -> handLandmarker (service (gestureService a)) = true)
   /\ (webcamEnabled a = true ->
       video (service (gestureService a)) = Some videoElement)) ->
  ((loading a' = true ->
    pendingGetUserMedia a' = 0 /\ webcamEnabled a' = false
    /\ video (service (gestureService a')) = None
    /\ trace (gestureService a') = [] /\ rafQueue (gestureService a') = [])
   /\ (loading a' = false -> handLandmarker (service (gestureService a')) = true)
   /\ (webcamEnabled a' = true ->
       video (service (gestureService a')) = Some videoElement))
  /\ (is_VisionReady e = false -> loading a = true -> loading a' = true).
Proof.
  intros Hstep (Hload & Hready & Hcam).
  destruct e as [| |o| |h o]; cbn [web_step] in Hstep.
  - injection Hstep as <-. cbn [loading webcamEnabled gestureService].
    split; [|discriminate].
    split; [discriminate|]. split; [reflexivity|]. exact Hcam.
  - unfold enableButtonShown in Hstep.
    destruct (webcamEnabled a) eqn:Hw; [discriminate|].
    destruct (loading a) eqn:Hl; [discriminate|].
    injection Hstep as <-. cbn [loading webcamEnabled gestureService].
    rewrite ?Hl, ?Hw. split; [|intros _ E; discriminate].
    split; [discriminate|]. split; [exact Hready|discriminate].
  - destruct (pendingGetUserMedia a) as [|n] eqn:Hp; [discriminate|].
    injection Hstep as <-. cbn [loading webcamEnabled gestureService].
    destruct (start_keeps videoElement o (gestureService a)) as (Hl' & Hv').
    destruct (loading a) eqn:Hl.
    + destruct (Hload eq_refl) as (E & _). discriminate.
    + split; [|intros _ E; discriminate].
      split; [discriminate|]. split; [|intros _; exact Hv'].
      intros _. rewrite Hl'. apply Hready. reflexivity.
  - destruct (pendingGetUserMedia a) as [|n] eqn:Hp; [discriminate|].
    injection Hstep as <-. cbn [loading webcamEnabled gestureService].
    destruct (loading a) eqn:Hl.
    + destruct (Hload eq_refl) as (E & _). discriminate.
    + split; [|intros _ E; discriminate].
      split; [discriminate|]. split; [exact Hready|exact Hcam].
  - injection Hstep as <-.
    cbn [loading webcamEnabled gestureService pendingGetUserMedia].
    destruct (fire_keeps h o (gestureService a)) as (Hl' & Hv').
    split; [|intros _ E; exact E].
    split; [|split].
    + intros Hl. destruct (Hload Hl) as (Hp & Hw & Hv & Ht & Hq).
      assert (Hfire : fire h o (gestureService a) = gestureService a).
      { unfold fire. rewrite Hq. reflexivity. }
      rewrite Hfire. repeat split; assumption.
    + intros Hl. rewrite Hl'. apply Hready. exact Hl.
    + intros Hw. rewrite Hv'. apply Hcam. exact Hw.
Qed.

Lemma run_web_invariant (es : list (WebEvent num)) (a a' : WebApp num) :
  run_web es a = Some a' ->
  ((loading a = true ->
    pendingGetUserMedia a = 0 /\ webcamEnabled a = false
    /\ video (service (gestureService a)) = None
    /\ trace (gestureService a) = [] /\ rafQueue (gestureService a) = [])
   /\ (loading a = false -> handLandmarker (service (gestureService a)) = true)
   /\ (webcamEnabled a = true ->
       video (service (gestureService a)) = Some videoElement)) ->
  ((loading a' = true ->
    pendingGetUserMedia a' = 0 /\ webcamEnabled a' = false
    /\ video (service (gestureService a')) = None
    /\ trace (gestureService a') = [] /\ rafQueue (gestureService a') = [])
   /\ (loading a' = false -> handLandmarker (service (gestureService a')) = true)
   /\ (webcamEnabled a' = true ->
       video (service (gestureService a')) = Some videoElement))
  /\ (forallb (fun e => negb (is_VisionReady e)) es = true ->
      loading a = true -> loading a' = true).
Proof.
  revert a. induction es as [|e es IH]; intros a Hrun Hinv.
  - injection Hrun as <-. split; [exact Hinv|auto].
  - cbn [run_web] in Hrun.
    destruct (web_step a e) as [a1|] eqn:Hstep; [|discriminate].
    destruct (web_step_invariant a a1 e Hstep Hinv) as (Hinv1 & Hkeep1).
    destruct (IH a1 Hrun Hinv1) as (Hinv' & Hkeep').
    split; [exact Hinv'|].
    intros Hes Hl. cbn [forallb] in Hes. apply andb_true_iff in Hes.
    destruct Hes as (He & Hes).
    apply Hkeep'; [exact Hes|]. apply Hkeep1; [|exact Hl].
    destruct (is_VisionReady e); [discriminate|reflexivity].
Qed.

(** X15. The "Enable Camera" button is shown only once the vision engine
    has loaded, so whatever the user and the browser do, a service that
    has a video also has its landmarker, and an enabled webcam means the
    service was started on the page's video element.  And as long as
    [initialize()] has not resolved (also when it fails) the page stays
    loading: the camera cannot be enabled and the service does nothing. *)
Theorem camera_waits_for_vision (es : list (WebEvent num)) (a : WebApp num) :
  run_web es mountedApp = Some a ->
  (video (service (gestureService a)) <> None ->
   loading a = false /\ handLandmarker (service (gestureService a)) = true)
  /\ (webcamEnabled a = true ->
      video (service (gestureService a)) = Some videoElement)
  /\ (forallb (fun e => negb (is_VisionReady e)) es = true ->
      loading a = true /\ webcamEnabled a = false
      /\ pendingGetUserMedia a = 0
      /\ trace (gestureService a) = []).
Proof.
  intros Hrun.
  destruct (run_web_invariant es mountedApp a Hrun) as ((Hload & Hready & Hcam) & Hkeep).
  { split; [|split].
    - intros _. repeat split.
    - discriminate.
    - discriminate. }
  split; [|split].
  - intros Hv. destruct (loading a) eqn:Hl.
    + destruct (Hload eq_refl) as (_ & _ & E & _). contradiction.
    + split; [reflexivity|]. apply Hready. reflexivity.
  - exact Hcam.
  - intros Hes. assert (Hl : loading a = true) by (apply Hkeep; auto).
    destruct (Hload Hl) as (Hp & Hw & _ & Ht & _).
    repeat split; assumption.
Qed.

End WebAppFacts.

Lemma camera_waits_for_vision_sample :
  exists a : WebApp PrimFloat.float,
    run_web [VisionReady; ClickEnableCamera; CameraGranted (noHandFrame 0)]
      mountedApp = Some a
    /\ handLandmarker (service (gestureService a)) = true.
Proof.
  eexists. split; [vm_compute; reflexivity|].
  eapply (@camera_waits_for_vision PrimFloat.float _
            [VisionReady; ClickEnableCamera; CameraGranted (noHandFrame 0)]).
  - vm_compute. reflexivity.
  - discriminate.
Defined.

(** ** PhotoCloud: the photo in front of the camera *)

Section PhotoCloudFacts.
Context {num : Type} `{JsNumber num}.

(** X16. In every reachable state of the app, the photo cloud shows a
    photo in front of the camera (an item that is selected while the mode
    is Zoom) exactly when the mode is Zoom. *)
Theorem zoom_shows_a_selected_photo (s : AppState num) :
  reachable s ->
  (mode s = ZOOM
   <-> existsb (inFocus (mode s)) (photoItems (photos s) (selectedPhotoId s))
       = true).
Proof.
  intros Hr. split.
  - intros Hm.
    destruct (reachable_zoom_selected s Hr Hm) as (Hsel & _).
    pose proof (reachable_selectionValid s Hr) as Hv.
    unfold selectionValid in Hv.
    destruct (selectedPhotoId s) as [i|]; [|congruence].
    destruct Hv as (_ & p & Hin & Hid).
    apply existsb_exists. exists (p, isSelected p (Some i)).
    split.
    + unfold photoItems.
      apply (in_map (fun photo => (photo, isSelected photo (Some i)))).
      exact Hin.
    + unfold inFocus, isSelected; simpl. rewrite Hid, Hm, String.eqb_refl.
      reflexivity.
  - intros Hex. apply existsb_exists in Hex.
    destruct Hex as (item & _ & Hfocus).
    unfold inFocus in Hfocus. apply andb_true_iff in Hfocus.
    apply AppMode_eqb_eq. apply Hfocus.
Qed.

End PhotoCloudFacts.

Lemma zoom_shows_a_selected_photo_sample :
  existsb (inFocus ZOOM)
    (photoItems
       (photos (sampleState (num:=PrimFloat.float) ZOOM (Some "b"%string)))
       (Some "b"%string)) = true.
Proof.
  apply (@zoom_shows_a_selected_photo PrimFloat.float _
           (setGestureState (gestureOf true Pinch)
              (sampleState ZOOM (Some "b"%string)))).
  - apply reachable_step
      with (s := sampleState TREE None)
           (e := NewGesture (decimal 5 10) (gestureOf true Pinch)).
    + apply reachable_step
        with (s := initialState)
             (e := Upload (decimal 5 10)
                     (Some [samplePhoto "a"; samplePhoto "b"; samplePhoto "c"]%string)).
      * apply reachable_initial.
      * vm_compute. reflexivity.
    + vm_compute. reflexivity.
  - reflexivity.
Defined.

(** ** Easing, over the reals *)

(** An easing step by a factor between 0 and 1 lands between the current
    value and the target. *)
Lemma ease_between (current target factor : R) :
  (0 <= factor <= 1)%R ->
  (current <= target -> current <= ease current target factor <= target)%R
  /\ (target <= current -> target <= ease current target factor <= current)%R.
Proof. intros Hf. unfold ease; simpl. split; intros Hc; split; nra. Qed.

Section GrabbedPhoto.
Variable natan2 : R -> R -> R.
Variable parseFloat : string -> R.

Lemma grabbed_frame (data : PhotoData R) (t : R) (rot : Vec3 R) :
  rotationFrame (photoTargets natan2 parseFloat data ZOOM true t) rot
  = {| vx := ease (vx rot) 0%R (2 / 10)%R;
       vy := ease (vy rot) 0%R (2 / 10)%R;
       vz := ease (vz rot) 0%R (2 / 10)%R |}.
Proof. reflexivity. Qed.

(** X17. While a mounted photo is the selected one in Zoom, its rotation
    angles only move towards 0, the angle at which it faces the camera:
    over any run of frames each angle keeps its sign and never grows,
    whatever the clock reads.  The photo never overshoots and never turns
    away. *)
Theorem grabbed_photo_never_overshoots
    (data : PhotoData R) (times : list R) (rot : Vec3 R) :
  let rot' := rotationRun natan2 parseFloat data ZOOM true times rot in
  ((0 <= vx rot -> 0 <= vx rot' <= vx rot)
   /\ (vx rot <= 0 -> vx rot <= vx rot' <= 0))%R
  /\ ((0 <= vy rot -> 0 <= vy rot' <= vy rot)
      /\ (vy rot <= 0 -> vy rot <= vy rot' <= 0))%R
  /\ ((0 <= vz rot -> 0 <= vz rot' <= vz rot)
      /\ (vz rot <= 0 -> vz rot <= vz rot' <= 0))%R.
Proof.
  cbv zeta. unfold rotationRun. revert rot.
  induction times as [|t times IH]; intro rot.
  - simpl. repeat split; lra.
  - cbn [fold_left]. rewrite grabbed_frame.
    specialize (IH {| vx := ease (vx rot) 0%R (2 / 10)%R;
                      vy := ease (vy rot) 0%R (2 / 10)%R;
                      vz := ease (vz rot) 0%R (2 / 10)%R |}).
    cbn [vx vy vz] in IH.
    assert (Hf : (0 <= 2 / 10 <= 1)%R) by lra.
    destruct (ease_between (vx rot) 0%R (2 / 10)%R Hf) as (Hxn & Hxp).
    destruct (ease_between (vy rot) 0%R (2 / 10)%R Hf) as (Hyn & Hyp).
    destruct (ease_between (vz rot) 0%R (2 / 10)%R Hf) as (Hzn & Hzp).
    destruct IH as ((IHxp & IHxn) & (IHyp & IHyn) & (IHzp & IHzn)).
    split; [|split]; (split; intros Hs).
    + specialize (Hxp Hs). specialize (IHxp (proj1 Hxp)). lra.
    + specialize (Hxn Hs). specialize (IHxn (proj2 Hxn)). lra.
    + specialize (Hyp Hs). specialize (IHyp (proj1 Hyp)). lra.
    + specialize (Hyn Hs). specialize (IHyn (proj2 Hyn)). lra.
    + specialize (Hzp Hs). specialize (IHzp (proj1 Hzp)). lra.
    + specialize (Hzn Hs). specialize (IHzn (proj2 Hzn)). lra.
Qed.

End GrabbedPhoto.

(** ** The camera, over the reals *)

Lemma cameraFrame_height (mode : AppMode) (g : GestureState R) (delta : R)
    (c : CameraRefs R) :
  (isHandDetected g = true -> inUnitSquare (handPosition g)) ->
  (-15 <= heightRef c <= 15)%R ->
  (-15 <= heightRef (cameraFrame mode g delta c) <= 15)%R.
Proof.
  intros Hhand Hc. unfold cameraFrame.
  destruct (AppMode_eqb mode ZOOM); [exact Hc|].
  destruct (isHandDetected g).
  - destruct (Hhand eq_refl) as (_ & Hy).
    unfold ease, decimal; simpl. lra.
  - unfold ease, decimal; simpl. lra.
Qed.

Lemma cameraFrame_angle (mode : AppMode) (g : GestureState R) (delta : R)
    (c : CameraRefs R) :
  (isHandDetected g = true -> inUnitSquare (handPosition g)) ->
  mode = ZOOM \/ isHandDetected g = true ->
  (-3 <= angleRef c <= 3)%R ->
  (-3 <= angleRef (cameraFrame mode g delta c) <= 3)%R.
Proof.
  intros Hhand Hcase Hc. unfold cameraFrame.
  destruct (AppMode_eqb mode ZOOM) eqn:Hz; [exact Hc|].
  destruct Hcase as [->|Hd]; [discriminate|].
  rewrite Hd. destruct (Hhand Hd) as (Hx & _).
  unfold ease, decimal; simpl. lra.
Qed.

(** X18. As long as the hand positions are in the unit square, the camera
    height stays within [-15, 15] frame after frame, starting from the
    initial refs, and outside Zoom the point the camera is eased towards
    lies in the box [-32, 32] x [-15, 15] x [-32, 32] about the tree.
    While a hand is detected in every frame outside Zoom, the orbit angle
    stays within [-3, 3]: just short of the half turn on either side. *)
Theorem camera_stays_in_range (ticks : list (CameraTick R)) (mode : AppMode) :
  Forall handInUnitSquare ticks ->
  (-15 <= heightRef (cameraRun ticks initialCamera) <= 15)%R
  /\ (mode <> ZOOM ->
      (-32 <= vx (cameraTarget mode (cameraRun ticks initialCamera)) <= 32)%R
      /\ (-15 <= vy (cameraTarget mode (cameraRun ticks initialCamera)) <= 15)%R
      /\ (-32 <= vz (cameraTarget mode (cameraRun ticks initialCamera)) <= 32)%R)
  /\ (Forall (fun t => tickMode t = ZOOM
                       \/ isHandDetected (tickGesture t) = true) ticks ->
      (-3 <= angleRef (cameraRun ticks initialCamera) <= 3)%R).
Proof.
  intros Hall.
  assert (Hgen : forall c : CameraRefs R,
             (-15 <= heightRef c <= 15)%R ->
             (-15 <= heightRef (cameraRun ticks c) <= 15)%R).
  { induction Hall as [|t ticks Ht Hall IH]; intros c Hc; [exact Hc|].
    unfold cameraRun; cbn [fold_left]. apply IH.
    apply cameraFrame_height; [exact Ht|exact Hc]. }
  assert (Hh : (-15 <= heightRef (cameraRun ticks initialCamera) <= 15)%R).
  { apply Hgen. simpl. lra. }
  split; [exact Hh|]. split.
  - intros Hm. unfold cameraTarget.
    destruct (AppMode_eqb mode ZOOM) eqn:Hz.
    { apply AppMode_eqb_eq in Hz. contradiction. }
    simpl.
    pose proof (SIN_bound (angleRef (cameraRun ticks initialCamera))) as Hs.
    pose proof (COS_bound (angleRef (cameraRun ticks initialCamera))) as Hc.
    repeat split; lra.
  - intros Hhands.
    assert (Hang : forall c : CameraRefs R,
               (-3 <= angleRef c <= 3)%R ->
               (-3 <= angleRef (cameraRun ticks c) <= 3)%R).
    { clear Hgen Hh. induction Hall as [|t ticks Ht Hall IH]; intros c Hc;
        [exact Hc|].
      inversion Hhands as [|t' ticks' Hcase Hrest]; subst.
      unfold cameraRun; cbn [fold_left]. apply (IH Hrest).
      apply cameraFrame_angle; [exact Ht|exact Hcase|exact Hc]. }
    apply Hang. simpl. lra.
Qed.

Lemma camera_stays_in_range_sample :
  (-15
   <= heightRef
        (cameraRun
           [{| tickMode := TREE; tickGesture := gestureOf true Open_Palm;
               tickDelta := 0%R |}]
           initialCamera)
   <= 15)%R.
Proof.
  refine (proj1 (camera_stays_in_range
                   [{| tickMode := TREE; tickGesture := gestureOf true Open_Palm;
                       tickDelta := 0%R |}] TREE _)).
  constructor; [|constructor].
  intros _. unfold inUnitSquare, gestureOf, pt, decimal; simpl. lra.
Defined.

(** ** Where a photo item is placed *)

Section PhotoPlacement.
Context {num : Type} `{JsNumber num} `{JsTrig num}.
Variable natan2 : num -> num -> num.
Variable parseFloat : string -> num.

(** X22. How [PhotoItem] places a photo: outside Zoom the selection
    plays no part; in Zoom a photo that is not the selected one is placed
    exactly as in Scatter, whatever mode Zoom was entered from; and the
    selected photo in Zoom has a pose that depends neither on the photo
    nor on the time. *)
Theorem photoTargets_cases
    (data data' : PhotoData num) (mode : AppMode) (t t' : num) :
  (mode <> ZOOM ->
   photoTargets natan2 parseFloat data mode true t
   = photoTargets natan2 parseFloat data mode false t)
  /\ photoTargets natan2 parseFloat data ZOOM false t
     = photoTargets natan2 parseFloat data SCATTER false t
  /\ photoTargets natan2 parseFloat data ZOOM true t
     = photoTargets natan2 parseFloat data' ZOOM true t'.
Proof.
  split; [|split].
  - intros Hm. destruct mode; [reflexivity|reflexivity|contradiction].
  - reflexivity.
  - reflexivity.
Qed.

End PhotoPlacement.

(** ** The loop never ends by itself; stopping twice *)

Section LoopAndStop.
Context {num : Type} `{JsNumber num}.

Lemma pollFrame_trace_ext (o : Tick num) (r r' : Runtime num) :
  service r = service r' -> trace r = trace r' ->
  trace (pollFrame o r) = trace (pollFrame o r').
Proof.
  intros Hs Ht. unfold pollFrame. rewrite Hs.
  destruct (video (service r')) as [v|]; [|exact Ht].
  destruct (handLandmarker (service r')); [|exact Ht].
  destruct (frameReady _ _); [|exact Ht].
  unfold detectAndProcess.
  destruct (detectForVideo o) as [d|]; [destruct (processDetections d)|];
    simpl; rewrite Ht; reflexivity.
Qed.

(** X23. Whatever a run of the loop meets (no video, no landmarker, a
    refused frame, a detection that throws or a classifier that throws),
    it ends by requesting the next animation frame: a handle that was
    never handed out before is queued and recorded, all earlier requests
    stay queued, and the browser will run the loop again. *)
Theorem loop_always_reschedules (o : Tick num) (rt : Runtime num) :
  rafQueue (loop o rt) = rafQueue rt ++ [rafNext rt]
  /\ requestRef (service (loop o rt)) = Some (rafNext rt)
  /\ rafNext (loop o rt) = Pos.succ (rafNext rt)
  /\ (forall o', trace (fire (rafNext rt) o' (loop o rt))
                 = trace (loop o' (loop o rt))).
Proof.
  destruct (pollFrame_queue o rt) as (Hq & Hn & _).
  destruct (reschedule_queue (pollFrame o rt)) as (Hq' & Hr').
  fold (loop o rt) in Hq', Hr'. rewrite Hq, Hn in Hq'. rewrite Hn in Hr'.
  split; [exact Hq'|]. split; [exact Hr'|]. split; [apply loop_next|].
  intros o'. unfold fire.
  assert (Hex : existsb (Pos.eqb (rafNext rt)) (rafQueue (loop o rt)) = true).
  { apply existsb_exists. exists (rafNext rt). split; [|apply Pos.eqb_refl].
    rewrite Hq'. apply in_or_app. right. left. reflexivity. }
  rewrite Hex. unfold loop at 1 2. rewrite !reschedule_trace.
  apply pollFrame_trace_ext; reflexivity.
Qed.

Lemma filter_twice (q : list positive) (h : positive) :
  filter (fun k => negb (Pos.eqb k h)) (filter (fun k => negb (Pos.eqb k h)) q)
  = filter (fun k => negb (Pos.eqb k h)) q.
Proof.
  induction q as [|k q IH]; [reflexivity|].
  simpl. destruct (negb (Pos.eqb k h)) eqn:Hk; simpl.
  - rewrite Hk, IH. reflexivity.
  - exact IH.
Qed.

(** X24. [stop()] on a service that was never started does nothing, and
    calling [stop()] twice is the same as calling it once; in no case
    does it change the service's fields or call anything. *)
Theorem stop_is_idempotent (rt : Runtime num) :
  stop (stop rt) = stop rt
  /\ stop newRuntime = (@newRuntime num _)
  /\ service (stop rt) = service rt
  /\ trace (stop rt) = trace rt.
Proof.
  split; [|split; [reflexivity|]].
  - unfold stop. destruct (requestRef (service rt)) as [h|] eqn:Hr.
    + cbn [cancelAnimationFrame service]. rewrite Hr.
      unfold cancelAnimationFrame; simpl. rewrite filter_twice. reflexivity.
    + rewrite Hr. reflexivity.
  - destruct (stop_keeps rt) as (Hs & Ht & _). split; assumption.
Qed.

End LoopAndStop.
